(** * OBD voice assistant backend: simulator and rule-based assistant

    A shallow embedding of [src/main.py]: the live-data simulator
    ([_simulate_value], [generate_live_data]), the diagnostics endpoint
    ([obd_diagnostics]) and the rule-based assistant
    ([tech_assistant_answer]), together with the static tables they read.

    Python [str] values are sequences of Unicode code points, modelled as
    [list N].  The random module is modelled as an interface whose draws are
    threaded through an explicit generator state. *)

From Stdlib Require Import ZArith NArith QArith Qround Qabs List String Ascii Bool Lia.
From stdpp Require Import base list.
Import ListNotations.

(* ===================================================================== *)
(** ** Python strings *)
(* ===================================================================== *)

Module PyStr.

(** A Python [str]: the sequence of its code points. *)
Definition pystr : Type := list N.

(** The literals of the source are written here as UTF-8 text; [utf8_decode]
    turns the bytes of such a literal into its code points. *)
Fixpoint bytes_of (s : string) : list N :=
  match s with
  | EmptyString => []
  | String a r => N_of_ascii a :: bytes_of r
  end.

Fixpoint utf8_decode (bs : list N) : pystr :=
  match bs with
  | [] => []
  | b0 :: r0 =>
    if (b0 <? 128)%N then b0 :: utf8_decode r0
    else if (b0 <? 224)%N then
      match r0 with
      | b1 :: r1 => ((b0 mod 32) * 64 + b1 mod 64)%N :: utf8_decode r1
      | [] => []
      end
    else if (b0 <? 240)%N then
      match r0 with
      | b1 :: b2 :: r2 =>
        ((b0 mod 16) * 4096 + (b1 mod 64) * 64 + b2 mod 64)%N :: utf8_decode r2
      | _ => []
      end
    else
      match r0 with
      | b1 :: b2 :: b3 :: r3 =>
        ((b0 mod 8) * 262144 + (b1 mod 64) * 4096 + (b2 mod 64) * 64 + b3 mod 64)%N
          :: utf8_decode r3
      | _ => []
      end
  end.

Definition u (s : string) : pystr := utf8_decode (bytes_of s).

(** [str.lower] follows the Unicode data of the interpreter (Unicode 14.0 in
    CPython 3.11).  [lower_pairs] lists every code point that lower-cases to
    one other code point, with its image; U+0130 is the only code point with
    a longer image (i followed by U+0307).  Every other code point is left
    as it is. *)
Definition lower_pairs : list (N * N) :=
  [
    (65, 97); (66, 98); (67, 99); (68, 100); (69, 101); (70, 102);
    (71, 103); (72, 104); (73, 105); (74, 106); (75, 107); (76, 108);
    (77, 109); (78, 110); (79, 111); (80, 112); (81, 113); (82, 114);
    (83, 115); (84, 116); (85, 117); (86, 118); (87, 119); (88, 120);
    (89, 121); (90, 122); (192, 224); (193, 225); (194, 226); (195, 227);
    (196, 228); (197, 229); (198, 230); (199, 231); (200, 232); (201, 233);
    (202, 234); (203, 235); (204, 236); (205, 237); (206, 238); (207, 239);
    (208, 240); (209, 241); (210, 242); (211, 243); (212, 244); (213, 245);
    (214, 246); (216, 248); (217, 249); (218, 250); (219, 251); (220, 252);
    (221, 253); (222, 254); (256, 257); (258, 259); (260, 261); (262, 263);
    (264, 265); (266, 267); (268, 269); (270, 271); (272, 273); (274, 275);
    (276, 277); (278, 279); (280, 281); (282, 283); (284, 285); (286, 287);
    (288, 289); (290, 291); (292, 293); (294, 295); (296, 297); (298, 299);
    (300, 301); (302, 303); (306, 307); (308, 309); (310, 311); (313, 314);
    (315, 316); (317, 318); (319, 320); (321, 322); (323, 324); (325, 326);
    (327, 328); (330, 331); (332, 333); (334, 335); (336, 337); (338, 339);
    (340, 341); (342, 343); (344, 345); (346, 347); (348, 349); (350, 351);
    (352, 353); (354, 355); (356, 357); (358, 359); (360, 361); (362, 363);
    (364, 365); (366, 367); (368, 369); (370, 371); (372, 373); (374, 375);
    (376, 255); (377, 378); (379, 380); (381, 382); (385, 595); (386, 387);
    (388, 389); (390, 596); (391, 392); (393, 598); (394, 599); (395, 396);
    (398, 477); (399, 601); (400, 603); (401, 402); (403, 608); (404, 611);
    (406, 617); (407, 616); (408, 409); (412, 623); (413, 626); (415, 629);
    (416, 417); (418, 419); (420, 421); (422, 640); (423, 424); (425, 643);
    (428, 429); (430, 648); (431, 432); (433, 650); (434, 651); (435, 436);
    (437, 438); (439, 658); (440, 441); (444, 445); (452, 454); (453, 454);
    (455, 457); (456, 457); (458, 460); (459, 460); (461, 462); (463, 464);
    (465, 466); (467, 468); (469, 470); (471, 472); (473, 474); (475, 476);
    (478, 479); (480, 481); (482, 483); (484, 485); (486, 487); (488, 489);
    (490, 491); (492, 493); (494, 495); (497, 499); (498, 499); (500, 501);
    (502, 405); (503, 447); (504, 505); (506, 507); (508, 509); (510, 511);
    (512, 513); (514, 515); (516, 517); (518, 519); (520, 521); (522, 523);
    (524, 525); (526, 527); (528, 529); (530, 531); (532, 533); (534, 535);
    (536, 537); (538, 539); (540, 541); (542, 543); (544, 414); (546, 547);
    (548, 549); (550, 551); (552, 553); (554, 555); (556, 557); (558, 559);
    (560, 561); (562, 563); (570, 11365); (571, 572); (573, 410); (574, 11366);
    (577, 578); (579, 384); (580, 649); (581, 652); (582, 583); (584, 585);
    (586, 587); (588, 589); (590, 591); (880, 881); (882, 883); (886, 887);
    (895, 1011); (902, 940); (904, 941); (905, 942); (906, 943); (908, 972);
    (910, 973); (911, 974); (913, 945); (914, 946); (915, 947); (916, 948);
    (917, 949); (918, 950); (919, 951); (920, 952); (921, 953); (922, 954);
    (923, 955); (924, 956); (925, 957); (926, 958); (927, 959); (928, 960);
    (929, 961); (931, 963); (932, 964); (933, 965); (934, 966); (935, 967);
    (936, 968); (937, 969); (938, 970); (939, 971); (975, 983); (984, 985);
    (986, 987); (988, 989); (990, 991); (992, 993); (994, 995); (996, 997);
    (998, 999); (1000, 1001); (1002, 1003); (1004, 1005); (1006, 1007); (1012, 952);
    (1015, 1016); (1017, 1010); (1018, 1019); (1021, 891); (1022, 892); (1023, 893);
    (1024, 1104); (1025, 1105); (1026, 1106); (1027, 1107); (1028, 1108); (1029, 1109);
    (1030, 1110); (1031, 1111); (1032, 1112); (1033, 1113); (1034, 1114); (1035, 1115);
    (1036, 1116); (1037, 1117); (1038, 1118); (1039, 1119); (1040, 1072); (1041, 1073);
    (1042, 1074); (1043, 1075); (1044, 1076); (1045, 1077); (1046, 1078); (1047, 1079);
    (1048, 1080); (1049, 1081); (1050, 1082); (1051, 1083); (1052, 1084); (1053, 1085);
    (1054, 1086); (1055, 1087); (1056, 1088); (1057, 1089); (1058, 1090); (1059, 1091);
    (1060, 1092); (1061, 1093); (1062, 1094); (1063, 1095); (1064, 1096); (1065, 1097);
    (1066, 1098); (1067, 1099); (1068, 1100); (1069, 1101); (1070, 1102); (1071, 1103);
    (1120, 1121); (1122, 1123); (1124, 1125); (1126, 1127); (1128, 1129); (1130, 1131);
    (1132, 1133); (1134, 1135); (1136, 1137); (1138, 1139); (1140, 1141); (1142, 1143);
    (1144, 1145); (1146, 1147); (1148, 1149); (1150, 1151); (1152, 1153); (1162, 1163);
    (1164, 1165); (1166, 1167); (1168, 1169); (1170, 1171); (1172, 1173); (1174, 1175);
    (1176, 1177); (1178, 1179); (1180, 1181); (1182, 1183); (1184, 1185); (1186, 1187);
    (1188, 1189); (1190, 1191); (1192, 1193); (1194, 1195); (1196, 1197); (1198, 1199);
    (1200, 1201); (1202, 1203); (1204, 1205); (1206, 1207); (1208, 1209); (1210, 1211);
    (1212, 1213); (1214, 1215); (1216, 1231); (1217, 1218); (1219, 1220); (1221, 1222);
    (1223, 1224); (1225, 1226); (1227, 1228); (1229, 1230); (1232, 1233); (1234, 1235);
    (1236, 1237); (1238, 1239); (1240, 1241); (1242, 1243); (1244, 1245); (1246, 1247);
    (1248, 1249); (1250, 1251); (1252, 1253); (1254, 1255); (1256, 1257); (1258, 1259);
    (1260, 1261); (1262, 1263); (1264, 1265); (1266, 1267); (1268, 1269); (1270, 1271);
    (1272, 1273); (1274, 1275); (1276, 1277); (1278, 1279); (1280, 1281); (1282, 1283);
    (1284, 1285); (1286, 1287); (1288, 1289); (1290, 1291); (1292, 1293); (1294, 1295);
    (1296, 1297); (1298, 1299); (1300, 1301); (1302, 1303); (1304, 1305); (1306, 1307);
    (1308, 1309); (1310, 1311); (1312, 1313); (1314, 1315); (1316, 1317); (1318, 1319);
    (1320, 1321); (1322, 1323); (1324, 1325); (1326, 1327); (1329, 1377); (1330, 1378);
    (1331, 1379); (1332, 1380); (1333, 1381); (1334, 1382); (1335, 1383); (1336, 1384);
    (1337, 1385); (1338, 1386); (1339, 1387); (1340, 1388); (1341, 1389); (1342, 1390);
    (1343, 1391); (1344, 1392); (1345, 1393); (1346, 1394); (1347, 1395); (1348, 1396);
    (1349, 1397); (1350, 1398); (1351, 1399); (1352, 1400); (1353, 1401); (1354, 1402);
    (1355, 1403); (1356, 1404); (1357, 1405); (1358, 1406); (1359, 1407); (1360, 1408);
    (1361, 1409); (1362, 1410); (1363, 1411); (1364, 1412); (1365, 1413); (1366, 1414);
    (4256, 11520); (4257, 11521); (4258, 11522); (4259, 11523); (4260, 11524); (4261, 11525);
    (4262, 11526); (4263, 11527); (4264, 11528); (4265, 11529); (4266, 11530); (4267, 11531);
    (4268, 11532); (4269, 11533); (4270, 11534); (4271, 11535); (4272, 11536); (4273, 11537);
    (4274, 11538); (4275, 11539); (4276, 11540); (4277, 11541); (4278, 11542); (4279, 11543);
    (4280, 11544); (4281, 11545); (4282, 11546); (4283, 11547); (4284, 11548); (4285, 11549);
    (4286, 11550); (4287, 11551); (4288, 11552); (4289, 11553); (4290, 11554); (4291, 11555);
    (4292, 11556); (4293, 11557); (4295, 11559); (4301, 11565); (5024, 43888); (5025, 43889);
    (5026, 43890); (5027, 43891); (5028, 43892); (5029, 43893); (5030, 43894); (5031, 43895);
    (5032, 43896); (5033, 43897); (5034, 43898); (5035, 43899); (5036, 43900); (5037, 43901);
    (5038, 43902); (5039, 43903); (5040, 43904); (5041, 43905); (5042, 43906); (5043, 43907);
    (5044, 43908); (5045, 43909); (5046, 43910); (5047, 43911); (5048, 43912); (5049, 43913);
    (5050, 43914); (5051, 43915); (5052, 43916); (5053, 43917); (5054, 43918); (5055, 43919);
    (5056, 43920); (5057, 43921); (5058, 43922); (5059, 43923); (5060, 43924); (5061, 43925);
    (5062, 43926); (5063, 43927); (5064, 43928); (5065, 43929); (5066, 43930); (5067, 43931);
    (5068, 43932); (5069, 43933); (5070, 43934); (5071, 43935); (5072, 43936); (5073, 43937);
    (5074, 43938); (5075, 43939); (5076, 43940); (5077, 43941); (5078, 43942); (5079, 43943);
    (5080, 43944); (5081, 43945); (5082, 43946); (5083, 43947); (5084, 43948); (5085, 43949);
    (5086, 43950); (5087, 43951); (5088, 43952); (5089, 43953); (5090, 43954); (5091, 43955);
    (5092, 43956); (5093, 43957); (5094, 43958); (5095, 43959); (5096, 43960); (5097, 43961);
    (5098, 43962); (5099, 43963); (5100, 43964); (5101, 43965); (5102, 43966); (5103, 43967);
    (5104, 5112); (5105, 5113); (5106, 5114); (5107, 5115); (5108, 5116); (5109, 5117);
    (7312, 4304); (7313, 4305); (7314, 4306); (7315, 4307); (7316, 4308); (7317, 4309);
    (7318, 4310); (7319, 4311); (7320, 4312); (7321, 4313); (7322, 4314); (7323, 4315);
    (7324, 4316); (7325, 4317); (7326, 4318); (7327, 4319); (7328, 4320); (7329, 4321);
    (7330, 4322); (7331, 4323); (7332, 4324); (7333, 4325); (7334, 4326); (7335, 4327);
    (7336, 4328); (7337, 4329); (7338, 4330); (7339, 4331); (7340, 4332); (7341, 4333);
    (7342, 4334); (7343, 4335); (7344, 4336); (7345, 4337); (7346, 4338); (7347, 4339);
    (7348, 4340); (7349, 4341); (7350, 4342); (7351, 4343); (7352, 4344); (7353, 4345);
    (7354, 4346); (7357, 4349); (7358, 4350); (7359, 4351); (7680, 7681); (7682, 7683);
    (7684, 7685); (7686, 7687); (7688, 7689); (7690, 7691); (7692, 7693); (7694, 7695);
    (7696, 7697); (7698, 7699); (7700, 7701); (7702, 7703); (7704, 7705); (7706, 7707);
    (7708, 7709); (7710, 7711); (7712, 7713); (7714, 7715); (7716, 7717); (7718, 7719);
    (7720, 7721); (7722, 7723); (7724, 7725); (7726, 7727); (7728, 7729); (7730, 7731);
    (7732, 7733); (7734, 7735); (7736, 7737); (7738, 7739); (7740, 7741); (7742, 7743);
    (7744, 7745); (7746, 7747); (7748, 7749); (7750, 7751); (7752, 7753); (7754, 7755);
    (7756, 7757); (7758, 7759); (7760, 7761); (7762, 7763); (7764, 7765); (7766, 7767);
    (7768, 7769); (7770, 7771); (7772, 7773); (7774, 7775); (7776, 7777); (7778, 7779);
    (7780, 7781); (7782, 7783); (7784, 7785); (7786, 7787); (7788, 7789); (7790, 7791);
    (7792, 7793); (7794, 7795); (7796, 7797); (7798, 7799); (7800, 7801); (7802, 7803);
    (7804, 7805); (7806, 7807); (7808, 7809); (7810, 7811); (7812, 7813); (7814, 7815);
    (7816, 7817); (7818, 7819); (7820, 7821); (7822, 7823); (7824, 7825); (7826, 7827);
    (7828, 7829); (7838, 223); (7840, 7841); (7842, 7843); (7844, 7845); (7846, 7847);
    (7848, 7849); (7850, 7851); (7852, 7853); (7854, 7855); (7856, 7857); (7858, 7859);
    (7860, 7861); (7862, 7863); (7864, 7865); (7866, 7867); (7868, 7869); (7870, 7871);
    (7872, 7873); (7874, 7875); (7876, 7877); (7878, 7879); (7880, 7881); (7882, 7883);
    (7884, 7885); (7886, 7887); (7888, 7889); (7890, 7891); (7892, 7893); (7894, 7895);
    (7896, 7897); (7898, 7899); (7900, 7901); (7902, 7903); (7904, 7905); (7906, 7907);
    (7908, 7909); (7910, 7911); (7912, 7913); (7914, 7915); (7916, 7917); (7918, 7919);
    (7920, 7921); (7922, 7923); (7924, 7925); (7926, 7927); (7928, 7929); (7930, 7931);
    (7932, 7933); (7934, 7935); (7944, 7936); (7945, 7937); (7946, 7938); (7947, 7939);
    (7948, 7940); (7949, 7941); (7950, 7942); (7951, 7943); (7960, 7952); (7961, 7953);
    (7962, 7954); (7963, 7955); (7964, 7956); (7965, 7957); (7976, 7968); (7977, 7969);
    (7978, 7970); (7979, 7971); (7980, 7972); (7981, 7973); (7982, 7974); (7983, 7975);
    (7992, 7984); (7993, 7985); (7994, 7986); (7995, 7987); (7996, 7988); (7997, 7989);
    (7998, 7990); (7999, 7991); (8008, 8000); (8009, 8001); (8010, 8002); (8011, 8003);
    (8012, 8004); (8013, 8005); (8025, 8017); (8027, 8019); (8029, 8021); (8031, 8023);
    (8040, 8032); (8041, 8033); (8042, 8034); (8043, 8035); (8044, 8036); (8045, 8037);
    (8046, 8038); (8047, 8039); (8072, 8064); (8073, 8065); (8074, 8066); (8075, 8067);
    (8076, 8068); (8077, 8069); (8078, 8070); (8079, 8071); (8088, 8080); (8089, 8081);
    (8090, 8082); (8091, 8083); (8092, 8084); (8093, 8085); (8094, 8086); (8095, 8087);
    (8104, 8096); (8105, 8097); (8106, 8098); (8107, 8099); (8108, 8100); (8109, 8101);
    (8110, 8102); (8111, 8103); (8120, 8112); (8121, 8113); (8122, 8048); (8123, 8049);
    (8124, 8115); (8136, 8050); (8137, 8051); (8138, 8052); (8139, 8053); (8140, 8131);
    (8152, 8144); (8153, 8145); (8154, 8054); (8155, 8055); (8168, 8160); (8169, 8161);
    (8170, 8058); (8171, 8059); (8172, 8165); (8184, 8056); (8185, 8057); (8186, 8060);
    (8187, 8061); (8188, 8179); (8486, 969); (8490, 107); (8491, 229); (8498, 8526);
    (8544, 8560); (8545, 8561); (8546, 8562); (8547, 8563); (8548, 8564); (8549, 8565);
    (8550, 8566); (8551, 8567); (8552, 8568); (8553, 8569); (8554, 8570); (8555, 8571);
    (8556, 8572); (8557, 8573); (8558, 8574); (8559, 8575); (8579, 8580); (9398, 9424);
    (9399, 9425); (9400, 9426); (9401, 9427); (9402, 9428); (9403, 9429); (9404, 9430);
    (9405, 9431); (9406, 9432); (9407, 9433); (9408, 9434); (9409, 9435); (9410, 9436);
    (9411, 9437); (9412, 9438); (9413, 9439); (9414, 9440); (9415, 9441); (9416, 9442);
    (9417, 9443); (9418, 9444); (9419, 9445); (9420, 9446); (9421, 9447); (9422, 9448);
    (9423, 9449); (11264, 11312); (11265, 11313); (11266, 11314); (11267, 11315); (11268, 11316);
    (11269, 11317); (11270, 11318); (11271, 11319); (11272, 11320); (11273, 11321); (11274, 11322);
    (11275, 11323); (11276, 11324); (11277, 11325); (11278, 11326); (11279, 11327); (11280, 11328);
    (11281, 11329); (11282, 11330); (11283, 11331); (11284, 11332); (11285, 11333); (11286, 11334);
    (11287, 11335); (11288, 11336); (11289, 11337); (11290, 11338); (11291, 11339); (11292, 11340);
    (11293, 11341); (11294, 11342); (11295, 11343); (11296, 11344); (11297, 11345); (11298, 11346);
    (11299, 11347); (11300, 11348); (11301, 11349); (11302, 11350); (11303, 11351); (11304, 11352);
    (11305, 11353); (11306, 11354); (11307, 11355); (11308, 11356); (11309, 11357); (11310, 11358);
    (11311, 11359); (11360, 11361); (11362, 619); (11363, 7549); (11364, 637); (11367, 11368);
    (11369, 11370); (11371, 11372); (11373, 593); (11374, 625); (11375, 592); (11376, 594);
    (11378, 11379); (11381, 11382); (11390, 575); (11391, 576); (11392, 11393); (11394, 11395);
    (11396, 11397); (11398, 11399); (11400, 11401); (11402, 11403); (11404, 11405); (11406, 11407);
    (11408, 11409); (11410, 11411); (11412, 11413); (11414, 11415); (11416, 11417); (11418, 11419);
    (11420, 11421); (11422, 11423); (11424, 11425); (11426, 11427); (11428, 11429); (11430, 11431);
    (11432, 11433); (11434, 11435); (11436, 11437); (11438, 11439); (11440, 11441); (11442, 11443);
    (11444, 11445); (11446, 11447); (11448, 11449); (11450, 11451); (11452, 11453); (11454, 11455);
    (11456, 11457); (11458, 11459); (11460, 11461); (11462, 11463); (11464, 11465); (11466, 11467);
    (11468, 11469); (11470, 11471); (11472, 11473); (11474, 11475); (11476, 11477); (11478, 11479);
    (11480, 11481); (11482, 11483); (11484, 11485); (11486, 11487); (11488, 11489); (11490, 11491);
    (11499, 11500); (11501, 11502); (11506, 11507); (42560, 42561); (42562, 42563); (42564, 42565);
    (42566, 42567); (42568, 42569); (42570, 42571); (42572, 42573); (42574, 42575); (42576, 42577);
    (42578, 42579); (42580, 42581); (42582, 42583); (42584, 42585); (42586, 42587); (42588, 42589);
    (42590, 42591); (42592, 42593); (42594, 42595); (42596, 42597); (42598, 42599); (42600, 42601);
    (42602, 42603); (42604, 42605); (42624, 42625); (42626, 42627); (42628, 42629); (42630, 42631);
    (42632, 42633); (42634, 42635); (42636, 42637); (42638, 42639); (42640, 42641); (42642, 42643);
    (42644, 42645); (42646, 42647); (42648, 42649); (42650, 42651); (42786, 42787); (42788, 42789);
    (42790, 42791); (42792, 42793); (42794, 42795); (42796, 42797); (42798, 42799); (42802, 42803);
    (42804, 42805); (42806, 42807); (42808, 42809); (42810, 42811); (42812, 42813); (42814, 42815);
    (42816, 42817); (42818, 42819); (42820, 42821); (42822, 42823); (42824, 42825); (42826, 42827);
    (42828, 42829); (42830, 42831); (42832, 42833); (42834, 42835); (42836, 42837); (42838, 42839);
    (42840, 42841); (42842, 42843); (42844, 42845); (42846, 42847); (42848, 42849); (42850, 42851);
    (42852, 42853); (42854, 42855); (42856, 42857); (42858, 42859); (42860, 42861); (42862, 42863);
    (42873, 42874); (42875, 42876); (42877, 7545); (42878, 42879); (42880, 42881); (42882, 42883);
    (42884, 42885); (42886, 42887); (42891, 42892); (42893, 613); (42896, 42897); (42898, 42899);
    (42902, 42903); (42904, 42905); (42906, 42907); (42908, 42909); (42910, 42911); (42912, 42913);
    (42914, 42915); (42916, 42917); (42918, 42919); (42920, 42921); (42922, 614); (42923, 604);
    (42924, 609); (42925, 620); (42926, 618); (42928, 670); (42929, 647); (42930, 669);
    (42931, 43859); (42932, 42933); (42934, 42935); (42936, 42937); (42938, 42939); (42940, 42941);
    (42942, 42943); (42944, 42945); (42946, 42947); (42948, 42900); (42949, 642); (42950, 7566);
    (42951, 42952); (42953, 42954); (42960, 42961); (42966, 42967); (42968, 42969); (42997, 42998);
    (65313, 65345); (65314, 65346); (65315, 65347); (65316, 65348); (65317, 65349); (65318, 65350);
    (65319, 65351); (65320, 65352); (65321, 65353); (65322, 65354); (65323, 65355); (65324, 65356);
    (65325, 65357); (65326, 65358); (65327, 65359); (65328, 65360); (65329, 65361); (65330, 65362);
    (65331, 65363); (65332, 65364); (65333, 65365); (65334, 65366); (65335, 65367); (65336, 65368);
    (65337, 65369); (65338, 65370); (66560, 66600); (66561, 66601); (66562, 66602); (66563, 66603);
    (66564, 66604); (66565, 66605); (66566, 66606); (66567, 66607); (66568, 66608); (66569, 66609);
    (66570, 66610); (66571, 66611); (66572, 66612); (66573, 66613); (66574, 66614); (66575, 66615);
    (66576, 66616); (66577, 66617); (66578, 66618); (66579, 66619); (66580, 66620); (66581, 66621);
    (66582, 66622); (66583, 66623); (66584, 66624); (66585, 66625); (66586, 66626); (66587, 66627);
    (66588, 66628); (66589, 66629); (66590, 66630); (66591, 66631); (66592, 66632); (66593, 66633);
    (66594, 66634); (66595, 66635); (66596, 66636); (66597, 66637); (66598, 66638); (66599, 66639);
    (66736, 66776); (66737, 66777); (66738, 66778); (66739, 66779); (66740, 66780); (66741, 66781);
    (66742, 66782); (66743, 66783); (66744, 66784); (66745, 66785); (66746, 66786); (66747, 66787);
    (66748, 66788); (66749, 66789); (66750, 66790); (66751, 66791); (66752, 66792); (66753, 66793);
    (66754, 66794); (66755, 66795); (66756, 66796); (66757, 66797); (66758, 66798); (66759, 66799);
    (66760, 66800); (66761, 66801); (66762, 66802); (66763, 66803); (66764, 66804); (66765, 66805);
    (66766, 66806); (66767, 66807); (66768, 66808); (66769, 66809); (66770, 66810); (66771, 66811);
    (66928, 66967); (66929, 66968); (66930, 66969); (66931, 66970); (66932, 66971); (66933, 66972);
    (66934, 66973); (66935, 66974); (66936, 66975); (66937, 66976); (66938, 66977); (66940, 66979);
    (66941, 66980); (66942, 66981); (66943, 66982); (66944, 66983); (66945, 66984); (66946, 66985);
    (66947, 66986); (66948, 66987); (66949, 66988); (66950, 66989); (66951, 66990); (66952, 66991);
    (66953, 66992); (66954, 66993); (66956, 66995); (66957, 66996); (66958, 66997); (66959, 66998);
    (66960, 66999); (66961, 67000); (66962, 67001); (66964, 67003); (66965, 67004); (68736, 68800);
    (68737, 68801); (68738, 68802); (68739, 68803); (68740, 68804); (68741, 68805); (68742, 68806);
    (68743, 68807); (68744, 68808); (68745, 68809); (68746, 68810); (68747, 68811); (68748, 68812);
    (68749, 68813); (68750, 68814); (68751, 68815); (68752, 68816); (68753, 68817); (68754, 68818);
    (68755, 68819); (68756, 68820); (68757, 68821); (68758, 68822); (68759, 68823); (68760, 68824);
    (68761, 68825); (68762, 68826); (68763, 68827); (68764, 68828); (68765, 68829); (68766, 68830);
    (68767, 68831); (68768, 68832); (68769, 68833); (68770, 68834); (68771, 68835); (68772, 68836);
    (68773, 68837); (68774, 68838); (68775, 68839); (68776, 68840); (68777, 68841); (68778, 68842);
    (68779, 68843); (68780, 68844); (68781, 68845); (68782, 68846); (68783, 68847); (68784, 68848);
    (68785, 68849); (68786, 68850); (71840, 71872); (71841, 71873); (71842, 71874); (71843, 71875);
    (71844, 71876); (71845, 71877); (71846, 71878); (71847, 71879); (71848, 71880); (71849, 71881);
    (71850, 71882); (71851, 71883); (71852, 71884); (71853, 71885); (71854, 71886); (71855, 71887);
    (71856, 71888); (71857, 71889); (71858, 71890); (71859, 71891); (71860, 71892); (71861, 71893);
    (71862, 71894); (71863, 71895); (71864, 71896); (71865, 71897); (71866, 71898); (71867, 71899);
    (71868, 71900); (71869, 71901); (71870, 71902); (71871, 71903); (93760, 93792); (93761, 93793);
    (93762, 93794); (93763, 93795); (93764, 93796); (93765, 93797); (93766, 93798); (93767, 93799);
    (93768, 93800); (93769, 93801); (93770, 93802); (93771, 93803); (93772, 93804); (93773, 93805);
    (93774, 93806); (93775, 93807); (93776, 93808); (93777, 93809); (93778, 93810); (93779, 93811);
    (93780, 93812); (93781, 93813); (93782, 93814); (93783, 93815); (93784, 93816); (93785, 93817);
    (93786, 93818); (93787, 93819); (93788, 93820); (93789, 93821); (93790, 93822); (93791, 93823);
    (125184, 125218); (125185, 125219); (125186, 125220); (125187, 125221); (125188, 125222); (125189, 125223);
    (125190, 125224); (125191, 125225); (125192, 125226); (125193, 125227); (125194, 125228); (125195, 125229);
    (125196, 125230); (125197, 125231); (125198, 125232); (125199, 125233); (125200, 125234); (125201, 125235);
    (125202, 125236); (125203, 125237); (125204, 125238); (125205, 125239); (125206, 125240); (125207, 125241);
    (125208, 125242); (125209, 125243); (125210, 125244); (125211, 125245); (125212, 125246); (125213, 125247);
    (125214, 125248); (125215, 125249); (125216, 125250); (125217, 125251)
  ]%N.

Fixpoint lookup_pair (c : N) (l : list (N * N)) : option N :=
  match l with
  | [] => None
  | (k, v) :: r => if (k =? c)%N then Some v else lookup_pair c r
  end.

(** [str.lower] on one code point, taken on its own. *)
Definition lower_cp (c : N) : list N :=
  if (c =? 304)%N then [105%N; 775%N]
  else match lookup_pair c lower_pairs with
       | Some d => [d]
       | None => [c]
       end.

(** The code points with the property Cased, and those with the property
    Case_Ignorable, as ranges with both ends included. *)
Definition cased_ranges : list (N * N) :=
  [
    (65, 90); (97, 122); (170, 170); (181, 181); (186, 186);
    (192, 214); (216, 246); (248, 442); (444, 447); (452, 659);
    (661, 696); (704, 705); (736, 740); (837, 837); (880, 883);
    (886, 887); (890, 893); (895, 895); (902, 902); (904, 906);
    (908, 908); (910, 929); (931, 1013); (1015, 1153); (1162, 1327);
    (1329, 1366); (1376, 1416); (4256, 4293); (4295, 4295); (4301, 4301);
    (4304, 4346); (4349, 4351); (5024, 5109); (5112, 5117); (7296, 7304);
    (7312, 7354); (7357, 7359); (7424, 7615); (7680, 7957); (7960, 7965);
    (7968, 8005); (8008, 8013); (8016, 8023); (8025, 8025); (8027, 8027);
    (8029, 8029); (8031, 8061); (8064, 8116); (8118, 8124); (8126, 8126);
    (8130, 8132); (8134, 8140); (8144, 8147); (8150, 8155); (8160, 8172);
    (8178, 8180); (8182, 8188); (8305, 8305); (8319, 8319); (8336, 8348);
    (8450, 8450); (8455, 8455); (8458, 8467); (8469, 8469); (8473, 8477);
    (8484, 8484); (8486, 8486); (8488, 8488); (8490, 8493); (8495, 8500);
    (8505, 8505); (8508, 8511); (8517, 8521); (8526, 8526); (8544, 8575);
    (8579, 8580); (9398, 9449); (11264, 11492); (11499, 11502); (11506, 11507);
    (11520, 11557); (11559, 11559); (11565, 11565); (42560, 42605); (42624, 42653);
    (42786, 42887); (42891, 42894); (42896, 42954); (42960, 42961); (42963, 42963);
    (42965, 42969); (42997, 42998); (43000, 43002); (43824, 43866); (43868, 43880);
    (43888, 43967); (64256, 64262); (64275, 64279); (65313, 65338); (65345, 65370);
    (66560, 66639); (66736, 66771); (66776, 66811); (66928, 66938); (66940, 66954);
    (66956, 66962); (66964, 66965); (66967, 66977); (66979, 66993); (66995, 67001);
    (67003, 67004); (67456, 67456); (67459, 67461); (67463, 67504); (67506, 67514);
    (68736, 68786); (68800, 68850); (71840, 71903); (93760, 93823); (119808, 119892);
    (119894, 119964); (119966, 119967); (119970, 119970); (119973, 119974); (119977, 119980);
    (119982, 119993); (119995, 119995); (119997, 120003); (120005, 120069); (120071, 120074);
    (120077, 120084); (120086, 120092); (120094, 120121); (120123, 120126); (120128, 120132);
    (120134, 120134); (120138, 120144); (120146, 120485); (120488, 120512); (120514, 120538);
    (120540, 120570); (120572, 120596); (120598, 120628); (120630, 120654); (120656, 120686);
    (120688, 120712); (120714, 120744); (120746, 120770); (120772, 120779); (122624, 122633);
    (122635, 122654); (125184, 125251); (127280, 127305); (127312, 127337); (127344, 127369)
  ]%N.

Definition case_ignorable_ranges : list (N * N) :=
  [
    (39, 39); (46, 46); (58, 58); (94, 94); (96, 96);
    (168, 168); (173, 173); (175, 175); (180, 180); (183, 184);
    (688, 879); (884, 885); (890, 890); (900, 901); (903, 903);
    (1155, 1161); (1369, 1369); (1375, 1375); (1425, 1469); (1471, 1471);
    (1473, 1474); (1476, 1477); (1479, 1479); (1524, 1524); (1536, 1541);
    (1552, 1562); (1564, 1564); (1600, 1600); (1611, 1631); (1648, 1648);
    (1750, 1757); (1759, 1768); (1770, 1773); (1807, 1807); (1809, 1809);
    (1840, 1866); (1958, 1968); (2027, 2037); (2042, 2042); (2045, 2045);
    (2070, 2093); (2137, 2139); (2184, 2184); (2192, 2193); (2200, 2207);
    (2249, 2306); (2362, 2362); (2364, 2364); (2369, 2376); (2381, 2381);
    (2385, 2391); (2402, 2403); (2417, 2417); (2433, 2433); (2492, 2492);
    (2497, 2500); (2509, 2509); (2530, 2531); (2558, 2558); (2561, 2562);
    (2620, 2620); (2625, 2626); (2631, 2632); (2635, 2637); (2641, 2641);
    (2672, 2673); (2677, 2677); (2689, 2690); (2748, 2748); (2753, 2757);
    (2759, 2760); (2765, 2765); (2786, 2787); (2810, 2815); (2817, 2817);
    (2876, 2876); (2879, 2879); (2881, 2884); (2893, 2893); (2901, 2902);
    (2914, 2915); (2946, 2946); (3008, 3008); (3021, 3021); (3072, 3072);
    (3076, 3076); (3132, 3132); (3134, 3136); (3142, 3144); (3146, 3149);
    (3157, 3158); (3170, 3171); (3201, 3201); (3260, 3260); (3263, 3263);
    (3270, 3270); (3276, 3277); (3298, 3299); (3328, 3329); (3387, 3388);
    (3393, 3396); (3405, 3405); (3426, 3427); (3457, 3457); (3530, 3530);
    (3538, 3540); (3542, 3542); (3633, 3633); (3636, 3642); (3654, 3662);
    (3761, 3761); (3764, 3772); (3782, 3782); (3784, 3789); (3864, 3865);
    (3893, 3893); (3895, 3895); (3897, 3897); (3953, 3966); (3968, 3972);
    (3974, 3975); (3981, 3991); (3993, 4028); (4038, 4038); (4141, 4144);
    (4146, 4151); (4153, 4154); (4157, 4158); (4184, 4185); (4190, 4192);
    (4209, 4212); (4226, 4226); (4229, 4230); (4237, 4237); (4253, 4253);
    (4348, 4348); (4957, 4959); (5906, 5908); (5938, 5939); (5970, 5971);
    (6002, 6003); (6068, 6069); (6071, 6077); (6086, 6086); (6089, 6099);
    (6103, 6103); (6109, 6109); (6155, 6159); (6211, 6211); (6277, 6278);
    (6313, 6313); (6432, 6434); (6439, 6440); (6450, 6450); (6457, 6459);
    (6679, 6680); (6683, 6683); (6742, 6742); (6744, 6750); (6752, 6752);
    (6754, 6754); (6757, 6764); (6771, 6780); (6783, 6783); (6823, 6823);
    (6832, 6862); (6912, 6915); (6964, 6964); (6966, 6970); (6972, 6972);
    (6978, 6978); (7019, 7027); (7040, 7041); (7074, 7077); (7080, 7081);
    (7083, 7085); (7142, 7142); (7144, 7145); (7149, 7149); (7151, 7153);
    (7212, 7219); (7222, 7223); (7288, 7293); (7376, 7378); (7380, 7392);
    (7394, 7400); (7405, 7405); (7412, 7412); (7416, 7417); (7468, 7530);
    (7544, 7544); (7579, 7679); (8125, 8125); (8127, 8129); (8141, 8143);
    (8157, 8159); (8173, 8175); (8189, 8190); (8203, 8207); (8216, 8217);
    (8228, 8228); (8231, 8231); (8234, 8238); (8288, 8292); (8294, 8303);
    (8305, 8305); (8319, 8319); (8336, 8348); (8400, 8432); (11388, 11389);
    (11503, 11505); (11631, 11631); (11647, 11647); (11744, 11775); (11823, 11823);
    (12293, 12293); (12330, 12333); (12337, 12341); (12347, 12347); (12441, 12446);
    (12540, 12542); (40981, 40981); (42232, 42237); (42508, 42508); (42607, 42610);
    (42612, 42621); (42623, 42623); (42652, 42655); (42736, 42737); (42752, 42785);
    (42864, 42864); (42888, 42890); (42994, 42996); (43000, 43001); (43010, 43010);
    (43014, 43014); (43019, 43019); (43045, 43046); (43052, 43052); (43204, 43205);
    (43232, 43249); (43263, 43263); (43302, 43309); (43335, 43345); (43392, 43394);
    (43443, 43443); (43446, 43449); (43452, 43453); (43471, 43471); (43493, 43494);
    (43561, 43566); (43569, 43570); (43573, 43574); (43587, 43587); (43596, 43596);
    (43632, 43632); (43644, 43644); (43696, 43696); (43698, 43700); (43703, 43704);
    (43710, 43711); (43713, 43713); (43741, 43741); (43756, 43757); (43763, 43764);
    (43766, 43766); (43867, 43871); (43881, 43883); (44005, 44005); (44008, 44008);
    (44013, 44013); (64286, 64286); (64434, 64450); (65024, 65039); (65043, 65043);
    (65056, 65071); (65106, 65106); (65109, 65109); (65279, 65279); (65287, 65287);
    (65294, 65294); (65306, 65306); (65342, 65342); (65344, 65344); (65392, 65392);
    (65438, 65439); (65507, 65507); (65529, 65531); (66045, 66045); (66272, 66272);
    (66422, 66426); (67456, 67461); (67463, 67504); (67506, 67514); (68097, 68099);
    (68101, 68102); (68108, 68111); (68152, 68154); (68159, 68159); (68325, 68326);
    (68900, 68903); (69291, 69292); (69446, 69456); (69506, 69509); (69633, 69633);
    (69688, 69702); (69744, 69744); (69747, 69748); (69759, 69761); (69811, 69814);
    (69817, 69818); (69821, 69821); (69826, 69826); (69837, 69837); (69888, 69890);
    (69927, 69931); (69933, 69940); (70003, 70003); (70016, 70017); (70070, 70078);
    (70089, 70092); (70095, 70095); (70191, 70193); (70196, 70196); (70198, 70199);
    (70206, 70206); (70367, 70367); (70371, 70378); (70400, 70401); (70459, 70460);
    (70464, 70464); (70502, 70508); (70512, 70516); (70712, 70719); (70722, 70724);
    (70726, 70726); (70750, 70750); (70835, 70840); (70842, 70842); (70847, 70848);
    (70850, 70851); (71090, 71093); (71100, 71101); (71103, 71104); (71132, 71133);
    (71219, 71226); (71229, 71229); (71231, 71232); (71339, 71339); (71341, 71341);
    (71344, 71349); (71351, 71351); (71453, 71455); (71458, 71461); (71463, 71467);
    (71727, 71735); (71737, 71738); (71995, 71996); (71998, 71998); (72003, 72003);
    (72148, 72151); (72154, 72155); (72160, 72160); (72193, 72202); (72243, 72248);
    (72251, 72254); (72263, 72263); (72273, 72278); (72281, 72283); (72330, 72342);
    (72344, 72345); (72752, 72758); (72760, 72765); (72767, 72767); (72850, 72871);
    (72874, 72880); (72882, 72883); (72885, 72886); (73009, 73014); (73018, 73018);
    (73020, 73021); (73023, 73029); (73031, 73031); (73104, 73105); (73109, 73109);
    (73111, 73111); (73459, 73460); (78896, 78904); (92912, 92916); (92976, 92982);
    (92992, 92995); (94031, 94031); (94095, 94111); (94176, 94177); (94179, 94180);
    (110576, 110579); (110581, 110587); (110589, 110590); (113821, 113822); (113824, 113827);
    (118528, 118573); (118576, 118598); (119143, 119145); (119155, 119170); (119173, 119179);
    (119210, 119213); (119362, 119364); (121344, 121398); (121403, 121452); (121461, 121461);
    (121476, 121476); (121499, 121503); (121505, 121519); (122880, 122886); (122888, 122904);
    (122907, 122913); (122915, 122916); (122918, 122922); (123184, 123197); (123566, 123566);
    (123628, 123631); (125136, 125142); (125252, 125259); (127995, 127999); (917505, 917505);
    (917536, 917631); (917760, 917999)
  ]%N.

Definition in_ranges (c : N) (rs : list (N * N)) : bool :=
  existsb (fun r => (fst r <=? c)%N && (c <=? snd r)%N) rs.

Definition is_cased (c : N) : bool := in_ranges c cased_ranges.

Definition is_case_ignorable (c : N) : bool := in_ranges c case_ignorable_ranges.

Fixpoint skip_case_ignorable (s : list N) : list N :=
  match s with
  | [] => []
  | c :: r => if is_case_ignorable c then skip_case_ignorable r else s
  end.

(** Whether a capital sigma is in final position: the nearest code point
    before it that is not case-ignorable is cased, and the nearest one after
    it that is not case-ignorable, if any, is not.  [before] holds the code
    points before the sigma, the nearest first. *)
Definition final_sigma (before after : list N) : bool :=
  match skip_case_ignorable before with
  | [] => false
  | c :: _ => is_cased c
  end
  && match skip_case_ignorable after with
     | [] => true
     | c :: _ => negb (is_cased c)
     end.

(** [s.lower()], with the code points already passed in [before], the
    nearest first: U+03A3 gives U+03C2 in final position and U+03C3
    elsewhere, every other code point gives [lower_cp]. *)
Fixpoint lower_from (before : list N) (s : pystr) : pystr :=
  match s with
  | [] => []
  | c :: r =>
    (if (c =? 931)%N
     then [if final_sigma before r then 962%N else 963%N]
     else lower_cp c)
    ++ lower_from (c :: before) r
  end.

(** [s.lower()] *)
Definition lower (s : pystr) : pystr := lower_from [] s.

(** A code point that lower-casing leaves alone, whatever surrounds it: it
    is not the capital sigma and [lower_cp] maps it to itself. *)
Definition settled (d : N) : bool :=
  negb (d =? 931)%N && negb (d =? 304)%N
  && match lookup_pair d lower_pairs with
     | None => true
     | Some _ => false
     end.

(** Lower-casing one code point at a time, without the rule for the final
    sigma. *)
Fixpoint lower_plain (s : pystr) : pystr :=
  match s with
  | [] => []
  | c :: r => lower_cp c ++ lower_plain r
  end.

(** [text.startswith(needle)] *)
Fixpoint startswith (needle text : pystr) : bool :=
  match needle, text with
  | [], _ => true
  | _ :: _, [] => false
  | a :: n', b :: t' => (a =? b)%N && startswith n' t'
  end.

(** [needle in text] on strings: substring containment. *)
Fixpoint str_contains (needle text : pystr) : bool :=
  startswith needle text ||
  match text with
  | [] => false
  | _ :: t' => str_contains needle t'
  end.

(** The mathematical reading of containment. *)
Definition substring (needle text : pystr) : Prop :=
  exists pre post : pystr, text = pre ++ needle ++ post.

(** Equality test on strings ([==], and [in] on a list of strings). *)
Fixpoint str_eqb (a b : pystr) : bool :=
  match a, b with
  | [], [] => true
  | x :: a', y :: b' => (x =? y)%N && str_eqb a' b'
  | _, _ => false
  end.

(** [x in xs] for a list of strings. *)
Definition list_contains (x : pystr) (xs : list pystr) : bool :=
  existsb (str_eqb x) xs.

End PyStr.
Import PyStr.

(* ===================================================================== *)
(** ** Data model and static tables *)
(* ===================================================================== *)

(** A [dict] with string keys and values, in insertion order. *)
Definition dict : Type := list (pystr * pystr).

(** [d.keys()] *)
Definition keys (d : dict) : list pystr := map fst d.

(** [d.items()] is the list itself. *)
Definition items (d : dict) : list (pystr * pystr) := d.

(** The lookup behind [d.get(k, default)]. *)
Fixpoint dict_lookup (d : dict) (k : pystr) : option pystr :=
  match d with
  | [] => None
  | (k', v) :: r => if str_eqb k' k then Some v else dict_lookup r k
  end.

(** [d.get(k, default)] *)
Definition dict_get (d : dict) (k default : pystr) : pystr :=
  match dict_lookup d k with
  | Some v => v
  | None => default
  end.

Record LiveData := mkLiveData {
  timestamp : pystr;
  rpm : Z;
  speed : Z;
  coolant_temp : Z;
  throttle : Z;
  load : Z;
  intake_temp : Z
}.

Record ChatResponse := mkChatResponse {
  answer : pystr;
  tips : option (list pystr)
}.

Record DiagnosticItem := mkDiagnosticItem {
  code : pystr;
  description : pystr;
  severity : pystr
}.

Record DiagnosticsResponse := mkDiagnosticsResponse {
  dtcs : list DiagnosticItem
}.

Definition SUPPORTED_PIDS : dict :=
  [ (u "010C", u "Engine RPM");
    (u "010D", u "Vehicle Speed");
    (u "0105", u "Coolant Temperature");
    (u "0111", u "Throttle Position");
    (u "0104", u "Calculated Engine Load");
    (u "010F", u "Intake Air Temp") ].

Definition DTC_LIBRARY : dict :=
  [ (u "P0300", u "Allumage raté aléatoire/multiple. Vérifier bougies, bobines, faisceau.");
    (u "P0171", u "Mélange pauvre (banc 1). Chercher prise d'air, débitmètre, pression carburant.");
    (u "P0420", u "Efficacité catalyseur faible. Contrôler fuites échappement, sonde amont/aval, catalyseur.");
    (u "P0113", u "Capteur température d'air d'admission (IAT) – signal élevé.");
    (u "P0128", u "Thermostat probablement ouvert. Température moteur trop basse.") ].

(* ===================================================================== *)
(** ** The rule-based assistant *)
(* ===================================================================== *)

Module Assistant.

Definition dtc_tip : pystr :=
  u "Vérifier le faisceau, les connecteurs et effacer le code après réparation.".

(** The response built inside the loop over the catalog: the f-string
    [f"Le code {code} signifie: {desc}"] and the local list [tips], empty
    before the [append]. *)
Definition dtc_response (code desc : pystr) : ChatResponse :=
  let tips : list pystr := [] in
  let tips := tips ++ [dtc_tip] in
  {| answer := u "Le code " ++ code ++ u " signifie: " ++ desc;
     tips := Some tips |}.

(** [for code, desc in DTC_LIBRARY.items(): if code.lower() in text: return ...]
    [None] stands for the loop running to its end without returning. *)
Fixpoint dtc_loop (its : list (pystr * pystr)) (text : pystr) : option ChatResponse :=
  match its with
  | [] => None
  | (code, desc) :: rest =>
    if str_contains (lower code) text then Some (dtc_response code desc)
    else dtc_loop rest text
  end.

(** [any(k in text for k in ks)] *)
Definition any_in (ks : list pystr) (text : pystr) : bool :=
  existsb (fun k => str_contains k text) ks.

Definition idle_keywords : list pystr :=
  [u "rpm"; u "ralenti"; u "boucle"; u "sonde lambda"; u "lambda"; u "o2"].

Definition ecu_keywords : list pystr :=
  [u "ecu"; u "calculateur"; u "reprogram"; u "reprog"; u "carto"; u "map"].

Definition battery_keywords : list pystr :=
  [u "batterie"; u "alternateur"; u "démarrage"; u "démarreur"; u "12v"].

Definition obd_response : ChatResponse :=
  {| answer :=
       u "Les adaptateurs ELM327 existent en Bluetooth, Wi‑Fi et USB. "
       ++ u "Pour un diagnostic fiable, utilisez un PID standard (RPM, vitesse, température) "
       ++ u "et lisez les DTC P0xxx. Je peux simuler des données et expliquer les résultats.";
     tips := Some
       [ u "Toujours moteur chaud pour des valeurs stables";
         u "Vérifier les tensions batterie (>12.4V à l'arrêt, >13.8V en charge)" ] |}.

Definition idle_response : ChatResponse :=
  {| answer :=
       u "Au ralenti, un RPM autour de 700–900 est normal. "
       ++ u "Les sondes lambda oscillent ~0.1–0.9V en boucle fermée. "
       ++ u "Si instable: rechercher prises d'air, débitmètre encrassé, allumage.";
     tips := Some
       [ u "Contrôle fumigène pour prises d'air";
         u "Nettoyage papillon et apprentissage ralenti" ] |}.

Definition ecu_response : ChatResponse :=
  {| answer :=
       u "Le calculateur (ECU) gère injection/avance via capteurs. "
       ++ u "Une reprogrammation doit rester dans les tolérances mécaniques et légales. "
       ++ u "Pour un diagnostic, lire trims carburant (LTFT/STFT) et pression rail.";
     tips := Some
       [ u "Toujours sauvegarder la carto d'origine";
         u "Surveiller EGT et AFR après modifs" ] |}.

Definition battery_response : ChatResponse :=
  {| answer :=
       u "Pour un défaut de démarrage: tester batterie (chute de tension <9.6V sous charge), "
       ++ u "alternateur (13.8–14.5V), masse châssis et excitation.";
     tips := Some
       [ u "Mesure avec multimètre en charge";
         u "Nettoyer cosses et points de masse" ] |}.

(** The default response leaves [tips] at its declared default, [None]. *)
Definition default_response : ChatResponse :=
  {| answer :=
       u "Je peux expliquer pannes mécaniques/électriques, décoder DTC, et interpréter tes valeurs OBD. "
       ++ u "Pose ta question (ex: 'Que signifie P0420 ?' ou 'Ralenti instable essence').";
     tips := None |}.

(** [tech_assistant_answer], with the module-level table it reads made
    explicit. *)
Definition tech_assistant_answer_in (library : dict) (q : pystr) : ChatResponse :=
  let text := lower q in
  match dtc_loop (items library) text with
  | Some r => r
  | None =>
    if str_contains (u "obd") text || str_contains (u "elm327") text then obd_response
    else if any_in idle_keywords text then idle_response
    else if any_in ecu_keywords text then ecu_response
    else if any_in battery_keywords text then battery_response
    else default_response
  end.

Definition tech_assistant_answer (q : pystr) : ChatResponse :=
  tech_assistant_answer_in DTC_LIBRARY q.

End Assistant.
Import Assistant.

(* ===================================================================== *)
(** ** The random module *)
(* ===================================================================== *)

(** What the code asks of Python's [random]: normal deviates and raw
    integers.  [gauss mu sigma] returns a finite float, read here as the
    rational it denotes; which one is left to the generator. *)
Class RandomSource (G : Type) := {
  gauss : Z -> Z -> G -> Q * G;
  randbits : G -> nat * G
}.

Module Rand.
Section WithGenerator.
Context {G : Type} {RS : RandomSource G}.

(** Computations that consume randomness and may raise: the generator state
    is threaded through, [None] is an exception. *)
Definition M (A : Type) : Type := G -> option A * G.

Definition ret {A : Type} (a : A) : M A := fun g => (Some a, g).

Definition bind {A B : Type} (m : M A) (f : A -> M B) : M B :=
  fun g =>
    match m g with
    | (Some a, g') => f a g'
    | (None, g') => (None, g')
    end.

Definition raise {A : Type} : M A := fun g => (None, g).

Definition lift {A : Type} (draw : G -> A * G) : M A :=
  fun g => let (a, g') := draw g in (Some a, g').

End WithGenerator.
End Rand.
Import Rand.

Notation "'let*' x ':=' m 'in' k" := (bind m (fun x => k))
  (at level 10, x name, m at level 100, k at level 200).

Section Simulator.
Context {G : Type} {RS : RandomSource G}.

(** [random._randbelow(n)]: an integer in [0, n).  Which one is the
    generator's business; a raw draw reduced modulo [n] reaches each of
    them. *)
Definition randbelow (n : nat) : M (G := G) nat :=
  lift (fun g => let (r, g') := randbits g in (r mod n, g')).

(** [random.choice(seq)]: [seq[_randbelow(len(seq))]], IndexError on an empty
    sequence. *)
Definition choice {A : Type} (seq : list A) : M (G := G) A :=
  match length seq with
  | O => raise
  | S _ =>
    let* j := randbelow (length seq) in
    match seq !! j with
    | Some x => ret x
    | None => raise
    end
  end.

(** The selection loop of [random.sample] over a pool: at step [i] an index
    [j] below [n - i] is drawn, [pool[j]] is the next result and the slot is
    refilled with [pool[n - i - 1]].  [todo] counts the steps that remain. *)
Fixpoint sample_loop {A : Type} (todo i n : nat) (pool result : list A)
  : M (G := G) (list A) :=
  match todo with
  | O => ret result
  | S todo' =>
    let* j := randbelow (n - i) in
    match pool !! j, pool !! (n - i - 1) with
    | Some x, Some y => sample_loop todo' (S i) n (<[j := y]> pool) (result ++ [x])
    | _, _ => raise
    end
  end.

(** [random.sample(population, k)], in the pool form it takes on the small
    populations of this program (CPython selects from a pool when the
    population has at most 21 elements); ValueError when [k] exceeds the
    population. *)
Definition sample {A : Type} (population : list A) (k : nat) : M (G := G) (list A) :=
  let n := length population in
  if (k <=? n)%nat then sample_loop k 0 n population [] else raise.

(** [int(x)] on a float: truncation toward zero. *)
Definition py_int (x : Q) : Z := Z.quot (Qnum x) (Zpos (Qden x)).

Definition _simulate_value (baseline variance min_v max_v : Z) : M (G := G) Z :=
  let* x := lift (gauss baseline variance) in
  let value := py_int x in
  ret (Z.max min_v (Z.min max_v value)).

(** [generate_live_data]; [now] is [datetime.utcnow().isoformat()]. *)
Definition generate_live_data (now : pystr) : M (G := G) LiveData :=
  let* rpm := _simulate_value 850 80 650 1200 in
  let* speed := _simulate_value 0 1 0 5 in
  let* coolant := _simulate_value 88 3 70 100 in
  let* throttle := _simulate_value 4 2 0 15 in
  let* load := _simulate_value 18 5 5 35 in
  let* iat := _simulate_value 32 3 5 60 in
  ret {| timestamp := now ++ u "Z";
         rpm := rpm; speed := speed; coolant_temp := coolant;
         throttle := throttle; load := load; intake_temp := iat |}.

Definition high_severity_codes : list pystr := [u "P0420"; u "P0300"].

(** One element of the list comprehension of [obd_diagnostics]. *)
Definition diagnostic_item (library : dict) (c : pystr) : DiagnosticItem :=
  {| code := c;
     description := dict_get library c (u "Code inconnu");
     severity := if list_contains c high_severity_codes
                 then u "élevée" else u "moyenne" |}.

(** [obd_diagnostics], with the module-level table it reads made explicit.
    The arguments of [random.sample] are evaluated left to right, so the
    count is drawn before the selection starts. *)
Definition obd_diagnostics_in (library : dict) : M (G := G) DiagnosticsResponse :=
  let population := keys library in
  let* k := choice [0%nat; 1%nat; 2%nat] in
  let* codes := sample population k in
  let dtcs := map (diagnostic_item library) codes in
  ret {| dtcs := dtcs |}.

Definition obd_diagnostics : M (G := G) DiagnosticsResponse :=
  obd_diagnostics_in DTC_LIBRARY.

End Simulator.

(* ===================================================================== *)
(** ** The application: module state and request handlers *)
(* ===================================================================== *)

Section Application.
Context {G : Type} {RS : RandomSource G}.

(** What lives across requests: the two module-level tables and the state
    of the shared generator. *)
Record Server := mkServer {
  dtc_library : dict;
  supported_pids : dict;
  generator : G
}.

Inductive Request :=
| GetRoot
| GetHello
| GetPids
| GetLive (now : pystr)
| GetDiagnostics
| PostChat (question : pystr).

Inductive Reply :=
| Message (m : pystr)
| Pids (supported : dict)
| Live (d : LiveData)
| Diagnostics (r : DiagnosticsResponse)
| Chat (r : ChatResponse)
| ServerError.

Definition reply_of {A : Type} (wrap : A -> Reply) (r : option A) : Reply :=
  match r with
  | Some a => wrap a
  | None => ServerError
  end.

(** One request: [read_root], [hello], [obd_pids], [obd_live],
    [obd_diagnostics] and [chat_endpoint]. *)
Definition handle (req : Request) (s : Server) : Reply * Server :=
  match req with
  | GetRoot => (Message (u "Hello from FastAPI Backend!"), s)
  | GetHello => (Message (u "Hello from the backend API!"), s)
  | GetPids => (Pids (supported_pids s), s)
  | GetLive now =>
    let (r, g') := generate_live_data now (generator s) in
    (reply_of Live r,
     {| dtc_library := dtc_library s; supported_pids := supported_pids s;
        generator := g' |})
  | GetDiagnostics =>
    let (r, g') := obd_diagnostics_in (dtc_library s) (generator s) in
    (reply_of Diagnostics r,
     {| dtc_library := dtc_library s; supported_pids := supported_pids s;
        generator := g' |})
  | PostChat q => (Chat (tech_assistant_answer_in (dtc_library s) q), s)
  end.

(** The server after a sequence of requests. *)
Fixpoint serve (reqs : list Request) (s : Server) : Server :=
  match reqs with
  | [] => s
  | req :: rest => serve rest (snd (handle req s))
  end.

(** Module state once the file has been loaded. *)
Definition boot (g : G) : Server :=
  {| dtc_library := DTC_LIBRARY; supported_pids := SUPPORTED_PIDS;
     generator := g |}.

End Application.

(* ===================================================================== *)
(** ** A generator that replays recorded draws *)
(* ===================================================================== *)

Module Tape.

(** The floats and the raw integers still to be handed out; an exhausted
    tape hands out zeros. *)
Record tape := mkTape { floats : list Q; raws : list nat }.

Definition tape_gauss (mu sigma : Z) (t : tape) : Q * tape :=
  match floats t with
  | [] => (0%Q, t)
  | x :: r => (x, {| floats := r; raws := raws t |})
  end.

Definition tape_randbits (t : tape) : nat * tape :=
  match raws t with
  | [] => (0%nat, t)
  | n :: r => (n, {| floats := floats t; raws := r |})
  end.

#[export] Instance tape_source : RandomSource tape :=
  {| gauss := tape_gauss; randbits := tape_randbits |}.

End Tape.
Import Tape.

(* ===================================================================== *)
(** ** The database probe *)
(* ===================================================================== *)

Module Probe.

(** What a call into the optional [database] module can do: return, or raise
    an exception whose [str] is [message]. *)
Inductive outcome (A : Type) : Type :=
| Returned (a : A)
| Raised (message : pystr).
Arguments Returned {A} a.
Arguments Raised {A} message.

(** The object [db] as the probe uses it: whether it has an attribute
    [name] (and its value), and what [db.list_collection_names()] does. *)
Record Database := mkDatabase {
  db_name : option pystr;
  list_collection_names : outcome (list pystr)
}.

(** What [from database import db] does: ImportError, another exception, or
    a value for [db], which may be [None]. *)
Inductive Import :=
| ImportError
| ImportException (message : pystr)
| Imported (db : option Database).

(** [os.getenv] for the two variables the probe reads. *)
Record Environ := mkEnviron {
  DATABASE_URL : option pystr;
  DATABASE_NAME : option pystr
}.

(** The dictionary [response], with its six fixed keys. *)
Record Report := mkReport {
  backend : pystr;
  database : pystr;
  database_url : option pystr;
  database_name : option pystr;
  connection_status : pystr;
  collections : list pystr
}.

Definition set_database (r : Report) (v : pystr) : Report :=
  {| backend := backend r; database := v; database_url := database_url r;
     database_name := database_name r;
     connection_status := connection_status r; collections := collections r |}.

Definition set_database_url (r : Report) (v : pystr) : Report :=
  {| backend := backend r; database := database r; database_url := Some v;
     database_name := database_name r;
     connection_status := connection_status r; collections := collections r |}.

Definition set_database_name (r : Report) (v : pystr) : Report :=
  {| backend := backend r; database := database r; database_url := database_url r;
     database_name := Some v;
     connection_status := connection_status r; collections := collections r |}.

Definition set_connection_status (r : Report) (v : pystr) : Report :=
  {| backend := backend r; database := database r; database_url := database_url r;
     database_name := database_name r;
     connection_status := v; collections := collections r |}.

Definition set_collections (r : Report) (v : list pystr) : Report :=
  {| backend := backend r; database := database r; database_url := database_url r;
     database_name := database_name r;
     connection_status := connection_status r; collections := v |}.

(** Truth value of what [os.getenv] returns: [None] and the empty string are
    false. *)
Definition truthy (v : option pystr) : bool :=
  match v with
  | Some (_ :: _) => true
  | _ => false
  end.

(** [test_database]: the import of the database module and the environment
    are its inputs. *)
Definition test_database (imp : Import) (env : Environ) : Report :=
  let response :=
    {| backend := u "✅ Running";
       database := u "❌ Not Available";
       database_url := None;
       database_name := None;
       connection_status := u "Not Connected";
       collections := [] |} in
  let response :=
    match imp with
    | Imported (Some db) =>
      let response := set_database response (u "✅ Available") in
      let response := set_database_url response (u "✅ Configured") in
      let response :=
        set_database_name response
          (match db_name db with
           | Some name => name
           | None => u "✅ Connected"
           end) in
      let response := set_connection_status response (u "Connected") in
      match list_collection_names db with
      | Returned collections =>
        let response := set_collections response (take 10 collections) in
        set_database response (u "✅ Connected & Working")
      | Raised e =>
        set_database response (u "⚠️  Connected but Error: " ++ take 50 e)
      end
    | Imported None => set_database response (u "⚠️  Available but not initialized")
    | ImportError => set_database response (u "❌ Database module not found (run enable-database first)")
    | ImportException e => set_database response (u "❌ Error: " ++ take 50 e)
    end in
  let response :=
    set_database_url response
      (if truthy (DATABASE_URL env) then u "✅ Set" else u "❌ Not Set") in
  let response :=
    set_database_name response
      (if truthy (DATABASE_NAME env) then u "✅ Set" else u "❌ Not Set") in
  response.

End Probe.
Import Probe.

(** The responses [tech_assistant_answer] has to choose from: one per
    catalog entry and the five fixed ones. *)
Definition all_responses : list ChatResponse :=
  map (fun it => dtc_response (fst it) (snd it)) (items DTC_LIBRARY)
  ++ [obd_response; idle_response; ecu_response; battery_response;
      default_response].

#[export] Instance ChatResponse_eq_dec : EqDecision ChatResponse.
Proof. solve_decision. Defined.

(* ===================================================================== *)
(** ** The vocabulary of the specification *)
(* ===================================================================== *)

Module Spec.

(** Clamping a value to the range from [lo] to [hi]. *)
Definition clamp (v lo hi : Z) : Z :=
  if (v <? lo)%Z then lo else if (hi <? v)%Z then hi else v.

(** Rounding to the nearest integer, ties to the even one. *)
Definition round_nearest (x : Q) : Z :=
  let f := Qfloor x in
  match Qcompare (x - inject_Z f) (1 # 2) with
  | Lt => f
  | Gt => (f + 1)%Z
  | Eq => if Z.even f then f else (f + 1)%Z
  end.

(** Truncation toward zero: the floor of a non-negative value, the ceiling
    of a negative one. *)
Definition truncate (x : Q) : Z :=
  if Qle_bool 0 x then Qfloor x else Qceiling x.

(** Some code of the catalog occurs, lower-cased, in the text. *)
Definition code_matches (library : dict) (text : pystr) : Prop :=
  exists c d, In (c, d) library /\ substring (lower c) text.

(** Some keyword of the list occurs in the text. *)
Definition keyword_matches (ks : list pystr) (text : pystr) : Prop :=
  exists k, In k ks /\ substring k text.

(** A string without the two small sigmas, U+03C2 and U+03C3. *)
Definition sigma_free (k : pystr) : bool :=
  forallb (fun a => negb (a =? 962)%N && negb (a =? 963)%N) k.

(** The two keywords of rule 2. *)
Definition obd_keywords : list pystr := [u "obd"; u "elm327"].

(** The keywords of rules 2 to 5, taken together. *)
Definition all_keywords : list pystr :=
  obd_keywords ++ idle_keywords ++ ecu_keywords ++ battery_keywords.

End Spec.
Import Spec.

(** Which branch [tech_assistant_answer_in] takes, in terms of what the text
    contains. *)
Inductive branch (library : dict) (text : pystr) : ChatResponse -> Prop :=
| branch_dtc pre code desc post :
    items library = pre ++ (code, desc) :: post ->
    ~ code_matches pre text ->
    substring (lower code) text ->
    branch library text (dtc_response code desc)
| branch_obd :
    ~ code_matches library text ->
    keyword_matches obd_keywords text ->
    branch library text obd_response
| branch_idle :
    ~ code_matches library text ->
    ~ keyword_matches obd_keywords text ->
    keyword_matches idle_keywords text ->
    branch library text idle_response
| branch_ecu :
    ~ code_matches library text ->
    ~ keyword_matches obd_keywords text ->
    ~ keyword_matches idle_keywords text ->
    keyword_matches ecu_keywords text ->
    branch library text ecu_response
| branch_battery :
    ~ code_matches library text ->
    ~ keyword_matches obd_keywords text ->
    ~ keyword_matches idle_keywords text ->
    ~ keyword_matches ecu_keywords text ->
    keyword_matches battery_keywords text ->
    branch library text battery_response
| branch_default :
    ~ code_matches library text ->
    ~ keyword_matches all_keywords text ->
    branch library text default_response.

(* ===================================================================== *)
(** ** Strings: containment and lower-casing *)
(* ===================================================================== *)

Lemma startswith_spec (needle text : pystr) :
  startswith needle text = true <-> exists post, text = needle ++ post.
Proof.
  revert text; induction needle as [|a needle IH]; intros text; simpl.
  - split; eauto.
  - destruct text as [|b text].
    + split; [discriminate | intros [post E]; discriminate].
    + rewrite andb_true_iff, N.eqb_eq, IH. split.
      * intros [-> [post ->]]; eauto.
      * intros [post E]. injection E as -> ->. eauto.
Qed.

Lemma str_contains_spec (needle text : pystr) :
  str_contains needle text = true <-> substring needle text.
Proof.
  unfold substring. induction text as [|b text IH]; simpl.
  - rewrite orb_false_r, startswith_spec. split.
    + intros [post E]. exists [], post. exact E.
    + intros [pre [post E]]. destruct pre; [eauto | discriminate].
  - rewrite orb_true_iff, startswith_spec, IH. split.
    + intros [[post E] | [pre [post E]]].
      * exists [], post. exact E.
      * exists (b :: pre), post. simpl. now rewrite E.
    + intros [pre [post E]]. destruct pre as [|b' pre]; simpl in E.
      * left. eauto.
      * right. injection E as _ E. eauto.
Qed.

Lemma str_contains_false (needle text : pystr) :
  str_contains needle text = false <-> ~ substring needle text.
Proof.
  rewrite <- str_contains_spec. destruct (str_contains needle text); split;
    intros; try congruence; tauto.
Qed.

Lemma str_eqb_spec (a b : pystr) : str_eqb a b = true <-> a = b.
Proof.
  revert b; induction a as [|x a IH]; intros [|y b]; simpl;
    try (split; [discriminate | intros E; discriminate]); try tauto.
  rewrite andb_true_iff, N.eqb_eq, IH. split.
  - intros [-> ->]; reflexivity.
  - intros E; injection E as -> ->; auto.
Qed.

Lemma lower_plain_app (a b : pystr) :
  lower_plain (a ++ b) = lower_plain a ++ lower_plain b.
Proof.
  induction a as [|c a IH]; simpl; [reflexivity|].
  now rewrite IH, app_assoc.
Qed.

Lemma lookup_pair_In (c d : N) (l : list (N * N)) :
  lookup_pair c l = Some d -> In (c, d) l.
Proof.
  induction l as [|[k v] l IH]; simpl; [discriminate|].
  destruct (N.eqb_spec k c) as [-> | _].
  - intros [= ->]. now left.
  - intros H. right. now apply IH.
Qed.

(** No image of the table is itself lower-cased further. *)
Lemma lower_pairs_settled :
  forallb (fun p => settled (snd p)) lower_pairs = true.
Proof. vm_compute. reflexivity. Qed.

Lemma settled_spec (d : N) :
  settled d = true -> d <> 931%N /\ lower_cp d = [d].
Proof.
  unfold settled, lower_cp. intros H.
  apply andb_true_iff in H as [H H3]. apply andb_true_iff in H as [H1 H2].
  apply negb_true_iff in H1, H2. rewrite H2.
  destruct (lookup_pair d lower_pairs); [discriminate|].
  split; [now apply N.eqb_neq | reflexivity].
Qed.

(** What [lower_cp] produces is settled. *)
Lemma lower_cp_settled (c : N) :
  c <> 931%N -> Forall (fun d => settled d = true) (lower_cp c).
Proof.
  intros Hc. unfold lower_cp.
  destruct (N.eqb_spec c 304) as [-> | H304].
  { repeat constructor. }
  destruct (lookup_pair c lower_pairs) as [d|] eqn:E.
  - apply lookup_pair_In in E.
    pose proof lower_pairs_settled as K. rewrite forallb_forall in K.
    constructor; [exact (K _ E) | constructor].
  - constructor; [|constructor]. unfold settled. rewrite E.
    apply N.eqb_neq in Hc, H304. now rewrite Hc, H304.
Qed.

Lemma lower_from_settled (s before : pystr) :
  Forall (fun d => settled d = true) (lower_from before s).
Proof.
  revert before; induction s as [|c s IH]; intros before; cbn [lower_from].
  - constructor.
  - apply Forall_app. split; [|apply IH].
    destruct (N.eqb_spec c 931) as [-> | Hc].
    + destruct (final_sigma before s); repeat constructor.
    + now apply lower_cp_settled.
Qed.

Lemma lower_from_fixed (t before : pystr) :
  Forall (fun d => settled d = true) t -> lower_from before t = t.
Proof.
  revert before; induction t as [|d t IH]; intros before H; cbn [lower_from];
    [reflexivity|].
  inversion H as [|? ? Hd Ht]; subst.
  apply settled_spec in Hd as [Hd1 Hd2].
  apply N.eqb_neq in Hd1. rewrite Hd1, Hd2, IH by exact Ht. reflexivity.
Qed.

Lemma lower_idempotent (s : pystr) : lower (lower s) = lower s.
Proof. unfold lower. apply lower_from_fixed, lower_from_settled. Qed.

(* ===================================================================== *)
(** ** The assistant: the loop over the catalog and the keyword tests *)
(* ===================================================================== *)

Section Cascade.
Variable text : pystr.

Lemma dtc_loop_first (its pre post : list (pystr * pystr)) (code desc : pystr) :
  its = pre ++ (code, desc) :: post ->
  ~ code_matches pre text ->
  substring (lower code) text ->
  dtc_loop its text = Some (dtc_response code desc).
Proof.
  intros -> Hpre Hc. induction pre as [|[c d] pre IH]; simpl.
  - apply str_contains_spec in Hc. now rewrite Hc.
  - destruct (str_contains (lower c) text) eqn:E.
    + exfalso. apply Hpre. exists c, d. split; [now left|].
      now apply str_contains_spec.
    + apply IH. intros (c' & d' & Hin & Hs). apply Hpre.
      exists c', d'. split; [now right | exact Hs].
Qed.

Lemma dtc_loop_none (its : list (pystr * pystr)) :
  dtc_loop its text = None <-> ~ code_matches its text.
Proof.
  induction its as [|[c d] its IH]; simpl.
  - split; [|reflexivity]. intros _ (c & d & [] & _).
  - destruct (str_contains (lower c) text) eqn:E.
    + split; [discriminate|]. intros H. exfalso. apply H.
      exists c, d. split; [now left | now apply str_contains_spec].
    + rewrite IH. apply str_contains_false in E. split.
      * intros H (c' & d' & [Heq | Hin] & Hs).
        -- injection Heq as <- <-. contradiction.
        -- apply H. now exists c', d'.
      * intros H (c' & d' & Hin & Hs). apply H. exists c', d'.
        split; [now right | exact Hs].
Qed.

(** When the loop returns, it returns for the first entry that matches. *)
Lemma dtc_loop_some (its : list (pystr * pystr)) (r : ChatResponse) :
  dtc_loop its text = Some r ->
  exists pre code desc post,
    its = pre ++ (code, desc) :: post /\
    ~ code_matches pre text /\
    substring (lower code) text /\
    r = dtc_response code desc.
Proof.
  induction its as [|[c d] its IH]; simpl; [discriminate|].
  destruct (str_contains (lower c) text) eqn:E.
  - intros [= <-]. exists [], c, d, its. repeat split.
    + intros (c' & d' & [] & _).
    + now apply str_contains_spec.
  - intros H. destruct (IH H) as (pre & code & desc & post & -> & Hpre & Hs & ->).
    exists ((c, d) :: pre), code, desc, post. repeat split; auto.
    intros (c' & d' & [Heq | Hin] & Hs').
    + injection Heq as <- <-. apply str_contains_false in E. contradiction.
    + apply Hpre. now exists c', d'.
Qed.

Lemma any_in_spec (ks : list pystr) :
  any_in ks text = true <-> keyword_matches ks text.
Proof.
  unfold any_in, keyword_matches. rewrite existsb_exists.
  split; intros (k & Hin & Hk); exists k; split; auto;
    now apply str_contains_spec.
Qed.

Lemma any_in_false (ks : list pystr) :
  any_in ks text = false <-> ~ keyword_matches ks text.
Proof.
  rewrite <- any_in_spec. destruct (any_in ks text); split;
    intros; try congruence; tauto.
Qed.

Lemma obd_test_spec :
  str_contains (u "obd") text || str_contains (u "elm327") text = true
  <-> keyword_matches obd_keywords text.
Proof.
  rewrite <- any_in_spec. unfold any_in, obd_keywords. simpl.
  now rewrite orb_false_r.
Qed.

Lemma keyword_matches_app (ks1 ks2 : list pystr) :
  keyword_matches (ks1 ++ ks2) text
  <-> keyword_matches ks1 text \/ keyword_matches ks2 text.
Proof.
  unfold keyword_matches. split.
  - intros (k & Hin & Hk). apply in_app_or in Hin as [H | H]; [left | right];
      now exists k.
  - intros [(k & Hin & Hk) | (k & Hin & Hk)]; exists k; split; auto;
      apply in_or_app; auto.
Qed.

End Cascade.

Lemma tech_assistant_answer_branch (library : dict) (q : pystr) :
  branch library (lower q) (tech_assistant_answer_in library q).
Proof.
  unfold tech_assistant_answer_in. cbv zeta.
  destruct (dtc_loop (items library) (lower q)) as [r|] eqn:Eloop.
  - apply dtc_loop_some in Eloop
      as (pre & code & desc & post & E & Hpre & Hs & ->).
    now apply branch_dtc with pre post.
  - apply dtc_loop_none in Eloop. unfold items in Eloop.
    destruct (str_contains (u "obd") (lower q) || str_contains (u "elm327") (lower q))
      eqn:E2.
    { apply branch_obd; [exact Eloop | now apply obd_test_spec]. }
    assert (H2 : ~ keyword_matches obd_keywords (lower q)).
    { rewrite <- obd_test_spec, E2. discriminate. }
    destruct (any_in idle_keywords (lower q)) eqn:E3.
    { apply branch_idle; auto. now apply any_in_spec. }
    apply any_in_false in E3.
    destruct (any_in ecu_keywords (lower q)) eqn:E4.
    { apply branch_ecu; auto. now apply any_in_spec. }
    apply any_in_false in E4.
    destruct (any_in battery_keywords (lower q)) eqn:E5.
    { apply branch_battery; auto. now apply any_in_spec. }
    apply any_in_false in E5.
    apply branch_default; auto. unfold all_keywords.
    rewrite !keyword_matches_app. tauto.
Qed.

Lemma keyword_matches_all (text : pystr) :
  keyword_matches all_keywords text
  <-> keyword_matches obd_keywords text \/ keyword_matches idle_keywords text
      \/ keyword_matches ecu_keywords text \/ keyword_matches battery_keywords text.
Proof. unfold all_keywords. rewrite !keyword_matches_app. tauto. Qed.

Lemma code_matches_middle (library pre post : dict) (c d text : pystr) :
  library = pre ++ (c, d) :: post ->
  substring (lower c) text ->
  code_matches library text.
Proof.
  intros -> Hs. exists c, d. split; [|exact Hs].
  apply in_or_app. right. now left.
Qed.

(** The five rules that can only fire when no code matches. *)
Lemma tech_assistant_answer_no_code (library : dict) (q : pystr) :
  ~ code_matches library (lower q) ->
  tech_assistant_answer_in library q =
    if str_contains (u "obd") (lower q) || str_contains (u "elm327") (lower q)
    then obd_response
    else if any_in idle_keywords (lower q) then idle_response
    else if any_in ecu_keywords (lower q) then ecu_response
    else if any_in battery_keywords (lower q) then battery_response
    else default_response.
Proof.
  intros H. apply dtc_loop_none in H.
  unfold tech_assistant_answer_in, items. cbv zeta. now rewrite H.
Qed.

Lemma tech_assistant_answer_default (library : dict) (q : pystr) :
  ~ code_matches library (lower q) ->
  ~ keyword_matches all_keywords (lower q) ->
  tech_assistant_answer_in library q = default_response.
Proof.
  intros Hc Hk. rewrite keyword_matches_all in Hk.
  rewrite (tech_assistant_answer_no_code _ _ Hc).
  assert (E2 : str_contains (u "obd") (lower q)
               || str_contains (u "elm327") (lower q) = false).
  { destruct (_ || _) eqn:E; [|reflexivity].
    apply obd_test_spec in E. tauto. }
  assert (E3 : any_in idle_keywords (lower q) = false)
    by (apply any_in_false; tauto).
  assert (E4 : any_in ecu_keywords (lower q) = false)
    by (apply any_in_false; tauto).
  assert (E5 : any_in battery_keywords (lower q) = false)
    by (apply any_in_false; tauto).
  now rewrite E2, E3, E4, E5.
Qed.

(* ===================================================================== *)
(** ** The assistant: claims *)
(* ===================================================================== *)

(** C2. [tech_assistant_answer] is the six-step cascade on the lower-cased
    question, the first rule that matches deciding: the catalog is walked in
    its declaration order (P0300, P0171, P0420, P0113, P0128) and the first
    entry whose lower-cased code occurs in the lower-cased question gives the
    answer built from that code and its description, whatever else the
    question contains; when no code occurs, "obd" or "elm327" give the
    adapter response; failing that the idle keywords, then the calculator
    keywords, then the battery keywords give theirs; failing all, the default
    response is returned. *)
Theorem C2_priority_cascade (q : pystr) :
  keys DTC_LIBRARY = [u "P0300"; u "P0171"; u "P0420"; u "P0113"; u "P0128"] /\
  (forall pre code desc post,
      items DTC_LIBRARY = pre ++ (code, desc) :: post ->
      ~ code_matches pre (lower q) ->
      substring (lower code) (lower q) ->
      tech_assistant_answer q = dtc_response code desc /\
      answer (tech_assistant_answer q)
        = u "Le code " ++ code ++ u " signifie: " ++ desc) /\
  (~ code_matches DTC_LIBRARY (lower q) ->
     (substring (u "obd") (lower q) \/ substring (u "elm327") (lower q) ->
        tech_assistant_answer q = obd_response) /\
     (~ keyword_matches obd_keywords (lower q) ->
        (keyword_matches idle_keywords (lower q) ->
           tech_assistant_answer q = idle_response) /\
        (~ keyword_matches idle_keywords (lower q) ->
           (keyword_matches ecu_keywords (lower q) ->
              tech_assistant_answer q = ecu_response) /\
           (~ keyword_matches ecu_keywords (lower q) ->
              (keyword_matches battery_keywords (lower q) ->
                 tech_assistant_answer q = battery_response) /\
              (~ keyword_matches battery_keywords (lower q) ->
                 tech_assistant_answer q = default_response))))).
Proof.
  split; [vm_compute; reflexivity|]. split.
  - intros pre code desc post E Hpre Hs.
    assert (R : tech_assistant_answer q = dtc_response code desc).
    { unfold tech_assistant_answer, tech_assistant_answer_in. cbv zeta.
      now rewrite (dtc_loop_first (lower q) _ pre post code desc E Hpre Hs). }
    split; [exact R | now rewrite R].
  - intros Hno. unfold tech_assistant_answer.
    rewrite (tech_assistant_answer_no_code _ _ Hno). split.
    + intros H.
      assert (K : keyword_matches obd_keywords (lower q)).
      { destruct H as [H | H]; [exists (u "obd") | exists (u "elm327")];
          (split; [|exact H]); simpl; auto. }
      apply obd_test_spec in K. now rewrite K.
    + intros H2.
      assert (E2 : str_contains (u "obd") (lower q)
                   || str_contains (u "elm327") (lower q) = false).
      { destruct (_ || _) eqn:E; [|reflexivity].
        apply obd_test_spec in E. contradiction. }
      rewrite E2. split.
      { intros H. apply any_in_spec in H. now rewrite H. }
      intros H3. apply any_in_false in H3. rewrite H3. split.
      { intros H. apply any_in_spec in H. now rewrite H. }
      intros H4. apply any_in_false in H4. rewrite H4. split.
      { intros H. apply any_in_spec in H. now rewrite H. }
      intros H5. apply any_in_false in H5. now rewrite H5.
Qed.

(** C6. The assistant only looks at the lower-cased copy of the question:
    a question and its lower-cased form get the same response, and so do any
    two questions with the same lower-cased form. *)
Theorem C6_case_insensitive (q : pystr) :
  tech_assistant_answer q = tech_assistant_answer (lower q) /\
  (forall q', lower q' = lower q ->
     tech_assistant_answer q' = tech_assistant_answer q).
Proof.
  split.
  - unfold tech_assistant_answer, tech_assistant_answer_in. cbv zeta.
    now rewrite lower_idempotent.
  - intros q' E. unfold tech_assistant_answer, tech_assistant_answer_in.
    cbv zeta. now rewrite E.
Qed.

(** C8. The assistant has no error branch: every question, the empty one
    included, gets a response, through one of the six branches; a question
    whose lower-cased form contains no catalog code and no keyword of rules
    2 to 5 gets the default response, whose tips are absent; "bonjour" and
    the empty question are such questions. *)
Theorem C8_total_with_default :
  (forall q, exists r,
      tech_assistant_answer q = r /\ branch DTC_LIBRARY (lower q) r) /\
  (forall q,
      ~ code_matches DTC_LIBRARY (lower q) ->
      ~ keyword_matches all_keywords (lower q) ->
      tech_assistant_answer q = default_response) /\
  tips default_response = None /\
  tech_assistant_answer (u "bonjour") = default_response /\
  tech_assistant_answer (u "") = default_response.
Proof.
  split; [|split; [|split; [|split]]].
  - intros q. eexists. split; [reflexivity|].
    apply tech_assistant_answer_branch.
  - intros q Hc Hk. now apply tech_assistant_answer_default.
  - reflexivity.
  - vm_compute. reflexivity.
  - vm_compute. reflexivity.
Qed.

(** C10. The tips of a response are never a present but empty list: they
    are absent exactly when the default rule fires (no catalog code and no
    keyword in the lower-cased question), a list of exactly one tip when a
    catalog code occurs, and a list of exactly two tips when no code occurs
    but a keyword of rules 2 to 5 does. *)
Theorem C10_tips_shape (q : pystr) :
  tips (tech_assistant_answer q) <> Some [] /\
  (tips (tech_assistant_answer q) = None <->
     ~ code_matches DTC_LIBRARY (lower q) /\
     ~ keyword_matches all_keywords (lower q)) /\
  (code_matches DTC_LIBRARY (lower q) ->
     exists t, tips (tech_assistant_answer q) = Some [t]) /\
  (~ code_matches DTC_LIBRARY (lower q) ->
     keyword_matches all_keywords (lower q) ->
     exists t1 t2, tips (tech_assistant_answer q) = Some [t1; t2]).
Proof.
  unfold tech_assistant_answer.
  generalize (tech_assistant_answer_branch DTC_LIBRARY q).
  generalize (tech_assistant_answer_in DTC_LIBRARY q). intros r B.
  rewrite keyword_matches_all.
  destruct B as [pre code desc post E Hpre Hs | Hc H2 | Hc H2 H3
                | Hc H2 H3 H4 | Hc H2 H3 H4 H5 | Hc Hk].
  - pose proof (code_matches_middle _ _ _ _ _ _ E Hs) as Hm.
    split; [discriminate|]. split; [|split].
    + split; [discriminate | tauto].
    + intros _. eexists. reflexivity.
    + tauto.
  - split; [discriminate|]. split; [|split].
    + split; [discriminate | tauto].
    + tauto.
    + intros _ _. eexists _, _. reflexivity.
  - split; [discriminate|]. split; [|split].
    + split; [discriminate | tauto].
    + tauto.
    + intros _ _. eexists _, _. reflexivity.
  - split; [discriminate|]. split; [|split].
    + split; [discriminate | tauto].
    + tauto.
    + intros _ _. eexists _, _. reflexivity.
  - split; [discriminate|]. split; [|split].
    + split; [discriminate | tauto].
    + tauto.
    + intros _ _. eexists _, _. reflexivity.
  - rewrite keyword_matches_all in Hk.
    split; [discriminate|]. split; [|split].
    + split; [tauto | reflexivity].
    + tauto.
    + tauto.
Qed.

(* ===================================================================== *)
(** ** The application: what requests leave behind *)
(* ===================================================================== *)

Section Statelessness.
Context {G : Type} {RS : RandomSource G}.

Lemma handle_tables (req : Request) (s : Server) :
  dtc_library (snd (handle req s)) = dtc_library s /\
  supported_pids (snd (handle req s)) = supported_pids s.
Proof.
  destruct req; simpl; auto.
  - destruct (generate_live_data now (generator s)); simpl; auto.
  - destruct (obd_diagnostics_in (dtc_library s) (generator s)); simpl; auto.
Qed.

Lemma serve_tables (reqs : list Request) (s : Server) :
  dtc_library (serve reqs s) = dtc_library s /\
  supported_pids (serve reqs s) = supported_pids s.
Proof.
  revert s; induction reqs as [|req reqs IH]; intros s; simpl; [auto|].
  destruct (IH (snd (handle req s))) as [-> ->]. apply handle_tables.
Qed.

(** C7. The assistant is deterministic and keeps no state: whatever
    requests the server has handled before and whatever the state of its
    random generator, a chat request with question [q] is answered with
    [tech_assistant_answer q], so any two such requests get the same answer
    and the same tips; and answering leaves the server as it was. *)
Theorem C7_deterministic_stateless
    (q : pystr) (before before' : list Request) (g g' : G) :
  fst (handle (PostChat q) (serve before (boot g)))
    = Chat (tech_assistant_answer q) /\
  fst (handle (PostChat q) (serve before (boot g)))
    = fst (handle (PostChat q) (serve before' (boot g'))) /\
  snd (handle (PostChat q) (serve before (boot g))) = serve before (boot g).
Proof.
  assert (K : forall h (x : G),
             fst (handle (PostChat q) (serve h (boot x)))
             = Chat (tech_assistant_answer q)).
  { intros h x. cbn [handle fst].
    destruct (serve_tables h (boot x)) as [-> _]. reflexivity. }
  split; [apply K|]. split; [now rewrite !K | reflexivity].
Qed.

End Statelessness.

(* ===================================================================== *)
(** ** The simulator: running the computations *)
(* ===================================================================== *)

Section SimulatorFacts.
Context {G : Type} {RS : RandomSource G}.

Lemma bind_run {A B : Type} (m : M A) (f : A -> M B) (g g' : G) (a : A) :
  m g = (Some a, g') -> bind m f g = f a g'.
Proof. intros E. unfold bind. now rewrite E. Qed.

Lemma simulate_value_run (baseline variance min_v max_v : Z) (g : G) :
  _simulate_value baseline variance min_v max_v g
  = (Some (Z.max min_v (Z.min max_v (py_int (fst (gauss baseline variance g))))),
     snd (gauss baseline variance g)).
Proof.
  unfold _simulate_value, bind, lift, ret.
  now destruct (gauss baseline variance g).
Qed.

Lemma randbelow_run (n : nat) (g : G) :
  exists j g', randbelow n g = (Some j, g') /\ (0 < n -> j < n)%nat.
Proof.
  unfold randbelow, lift. destruct (randbits g) as [r g'].
  exists (r mod n)%nat, g'. split; [reflexivity|].
  intros Hn. apply Nat.mod_upper_bound. lia.
Qed.

Lemma choice_run {A : Type} (seq : list A) (g : G) :
  seq <> [] ->
  exists x g', choice seq g = (Some x, g') /\ In x seq.
Proof.
  intros Hne. unfold choice.
  destruct (length seq) as [|n] eqn:El.
  { destruct seq; [contradiction | discriminate]. }
  rewrite <- El.
  destruct (randbelow_run (length seq) g) as (j & g' & Ej & Hj).
  rewrite (bind_run _ _ _ _ _ Ej).
  destruct (lookup_lt_is_Some_2 seq j) as [x Ex]; [apply Hj; lia|].
  rewrite Ex. exists x, g'. split; [reflexivity|].
  apply list_elem_of_In. eapply list_elem_of_lookup_2. exact Ex.
Qed.

(** Overwriting the slot that held [x] and appending: the same elements as
    taking [x] out and appending what was written. *)
Lemma insert_swap_perm {A : Type} (l : list A) (j : nat) (x y : A) :
  l !! j = Some x -> x :: <[j := y]> l ≡ₚ l ++ [y].
Proof.
  revert j; induction l as [|a l IH]; intros [|j] H; simpl in *;
    try discriminate.
  - injection H as ->. apply perm_skip. apply Permutation_cons_append.
  - etransitivity; [apply perm_swap|]. apply perm_skip. now apply IH.
Qed.

(** One step of the selection: the element drawn and the shortened pool
    together are the pool as it was. *)
Lemma pool_step {A : Type} (pool : list A) (j m : nat) (x y : A) :
  (j <= m)%nat -> pool !! j = Some x -> pool !! m = Some y ->
  x :: take m (<[j := y]> pool) ≡ₚ take (S m) pool.
Proof.
  intros Hj Hx Hy. rewrite (take_S_r _ _ _ Hy).
  destruct (decide (j = m)) as [-> | Hne].
  - rewrite take_insert_ge by lia.
    assert (x = y) as -> by congruence. apply Permutation_cons_append.
  - rewrite take_insert_lt by lia. apply insert_swap_perm.
    rewrite lookup_take_lt by lia. exact Hx.
Qed.

Lemma sample_loop_run {A : Type} (todo : nat) :
  forall (i n : nat) (pool result : list A) (g : G),
    length pool = n -> (i + todo <= n)%nat ->
    exists res rest g',
      sample_loop todo i n pool result g = (Some res, g') /\
      length res = (length result + todo)%nat /\
      res ++ rest ≡ₚ result ++ take (n - i) pool.
Proof.
  induction todo as [|todo IH]; intros i n pool result g Hlen Hi.
  - exists result, (take (n - i) pool), g. simpl. split; [reflexivity|].
    split; [lia | reflexivity].
  - cbn [sample_loop].
    destruct (randbelow_run (n - i) g) as (j & g1 & Ej & Hj).
    rewrite (bind_run _ _ _ _ _ Ej).
    assert (Hjlt : (j < n - i)%nat) by (apply Hj; lia).
    destruct (lookup_lt_is_Some_2 pool j) as [x Ex]; [lia|].
    destruct (lookup_lt_is_Some_2 pool (n - i - 1)) as [y Ey]; [lia|].
    rewrite Ex, Ey.
    destruct (IH (S i) n (<[j := y]> pool) (result ++ [x]) g1)
      as (res & rest & g' & Er & Hl & Hp);
      [now rewrite length_insert | lia |].
    exists res, rest, g'. split; [exact Er|]. split.
    + rewrite Hl, length_app. simpl. lia.
    + rewrite Hp, <- app_assoc. simpl. apply Permutation_app_head.
      replace (n - S i)%nat with (n - i - 1)%nat by lia.
      replace (n - i)%nat with (S (n - i - 1)) at 2 by lia.
      apply pool_step; [lia | exact Ex | exact Ey].
Qed.

(** [random.sample] returns as many elements as asked, taken out of the
    population without ever taking one position twice. *)
Lemma sample_run {A : Type} (population : list A) (k : nat) (g : G) :
  (k <= length population)%nat ->
  exists res rest g',
    sample population k g = (Some res, g') /\
    length res = k /\
    res ++ rest ≡ₚ population.
Proof.
  intros Hk. unfold sample. cbv zeta.
  replace (k <=? length population)%nat with true
    by (symmetry; now apply Nat.leb_le).
  destruct (sample_loop_run k 0 (length population) population [] g)
    as (res & rest & g' & Er & Hl & Hp); [reflexivity | lia |].
  exists res, rest, g'. split; [exact Er|]. split; [exact Hl|].
  rewrite Hp. simpl. rewrite Nat.sub_0_r, take_ge by lia. reflexivity.
Qed.

(** The diagnostics endpoint returns, with at most two items built from
    codes taken out of the key list. *)
Lemma obd_diagnostics_run (library : dict) (g : G) :
  (2 <= length library)%nat ->
  exists codes rest g',
    obd_diagnostics_in library g
      = (Some {| dtcs := map (diagnostic_item library) codes |}, g') /\
    (length codes <= 2)%nat /\
    codes ++ rest ≡ₚ keys library.
Proof.
  intros Hlib. unfold obd_diagnostics_in. cbv zeta.
  destruct (choice_run [0; 1; 2]%nat g) as (k & g1 & Ek & Hk); [discriminate|].
  rewrite (bind_run _ _ _ _ _ Ek).
  assert (Hk2 : (k <= 2)%nat) by (simpl in Hk; lia).
  destruct (sample_run (keys library) k g1) as (codes & rest & g' & Es & Hl & Hp).
  { unfold keys. rewrite length_map. lia. }
  rewrite (bind_run _ _ _ _ _ Es).
  exists codes, rest, g'. split; [reflexivity|]. split; [lia | exact Hp].
Qed.

End SimulatorFacts.

(* ===================================================================== *)
(** ** The simulator: claims *)
(* ===================================================================== *)

(** [int] on a float is truncation toward zero. *)
Lemma py_int_truncate (x : Q) : py_int x = truncate x.
Proof.
  destruct x as [n d]. unfold py_int, truncate, Qle_bool, Qceiling, Qfloor.
  cbn [Qnum Qden Qopp].
  destruct (Z.leb_spec (0 * Z.pos d) (n * 1)) as [H | H].
  - apply Z.quot_div_nonneg; lia.
  - rewrite <- (Z.opp_involutive n) at 1.
    rewrite Z.quot_opp_l by lia. f_equal.
    apply Z.quot_div_nonneg; lia.
Qed.

Lemma max_min_clamp (v lo hi : Z) :
  (lo <= hi)%Z -> Z.max lo (Z.min hi v) = clamp v lo hi.
Proof.
  intros H. unfold clamp.
  destruct (Z.ltb_spec v lo); [lia|].
  destruct (Z.ltb_spec hi v); lia.
Qed.

Lemma list_contains_spec (x : pystr) (xs : list pystr) :
  list_contains x xs = true <-> In x xs.
Proof.
  unfold list_contains. rewrite existsb_exists. split.
  - intros (y & Hin & E). apply str_eqb_spec in E. now subst.
  - intros H. exists x. split; [exact H | now apply str_eqb_spec].
Qed.

(** Every key of the catalog is found by the lookup, with a description
    that is not the fallback text. *)
Lemma catalog_lookup (c : pystr) :
  In c (keys DTC_LIBRARY) ->
  exists d,
    dict_lookup DTC_LIBRARY c = Some d /\
    In (c, d) DTC_LIBRARY /\
    d <> u "Code inconnu".
Proof.
  intros H. unfold keys, DTC_LIBRARY in H. cbn [map fst In] in H.
  destruct H as [<- | [<- | [<- | [<- | [<- | []]]]]];
    (eexists; split; [vm_compute; reflexivity|]; split;
     [repeat (first [left; reflexivity | right]) | vm_compute; discriminate]).
Qed.

Section SimulatorClaims.
Context {G : Type} {RS : RandomSource G}.

(** C1. Whatever the generator hands out, [generate_live_data] returns a
    snapshot, and each of its six readings lies in its range: rpm in
    650..1200, speed in 0..5, coolant_temp in 70..100, throttle in 0..15,
    load in 5..35 and intake_temp in 5..60. *)
Theorem C1_live_data_in_range (now : pystr) (g : G) :
  exists d g',
    generate_live_data now g = (Some d, g') /\
    (650 <= rpm d <= 1200)%Z /\
    (0 <= speed d <= 5)%Z /\
    (70 <= coolant_temp d <= 100)%Z /\
    (0 <= throttle d <= 15)%Z /\
    (5 <= load d <= 35)%Z /\
    (5 <= intake_temp d <= 60)%Z.
Proof.
  unfold generate_live_data.
  do 6 (erewrite bind_run by apply simulate_value_run).
  unfold ret. eexists _, _. split; [reflexivity|].
  cbn [rpm speed coolant_temp throttle load intake_temp].
  repeat split; lia.
Qed.

(** C3, as the code has it. For every range with [min_v <= max_v] and every
    value [x] handed out by the normal sampler, the result of
    [_simulate_value] is [x] truncated toward zero and then clamped to the
    range: truncation comes first, and it is truncation, not rounding. *)
Theorem C3_truncate_then_clamp (baseline variance min_v max_v : Z) (g : G) :
  (min_v <= max_v)%Z ->
  fst (_simulate_value baseline variance min_v max_v g)
  = Some (clamp (truncate (fst (gauss baseline variance g))) min_v max_v).
Proof.
  intros H. rewrite simulate_value_run. cbn [fst].
  now rewrite py_int_truncate, max_min_clamp.
Qed.

(** C4. [obd_diagnostics] returns a list of zero, one or two items, never
    more than the catalog has codes (its five keys are distinct), without a
    repeated code, and every code in it is a key of the catalog. *)
Theorem C4_diagnostics_selection (g : G) :
  exists r g',
    obd_diagnostics g = (Some r, g') /\
    (length (dtcs r) = 0 \/ length (dtcs r) = 1 \/ length (dtcs r) = 2)%nat /\
    NoDup (keys DTC_LIBRARY) /\
    (length (dtcs r) <= length (keys DTC_LIBRARY))%nat /\
    NoDup (map code (dtcs r)) /\
    (forall it, In it (dtcs r) -> In (code it) (keys DTC_LIBRARY)).
Proof.
  destruct (obd_diagnostics_run DTC_LIBRARY g)
    as (codes & rest & g' & E & Hl & Hp); [simpl; lia|].
  assert (Hkeys : NoDup (keys DTC_LIBRARY)).
  { apply (bool_decide_unpack _). vm_compute. reflexivity. }
  assert (Hcodes : map code (map (diagnostic_item DTC_LIBRARY) codes) = codes).
  { rewrite map_map. simpl. apply map_id. }
  eexists _, g'. split; [exact E|]. cbn [dtcs].
  rewrite Hcodes, length_map.
  split; [lia|]. split; [exact Hkeys|]. split; [simpl; lia|]. split.
  - rewrite <- Hp in Hkeys. now apply NoDup_app in Hkeys as [Hkeys _].
  - intros it Hit. apply in_map_iff in Hit as (c & <- & Hc). cbn [code diagnostic_item].
    apply (Permutation_in _ Hp). apply in_or_app. now left.
Qed.

(** C5. In every item returned by [obd_diagnostics] the severity is
    "élevée" if and only if the code is one of P0420 and P0300, and
    "moyenne" otherwise: it is computed from the code alone. *)
Theorem C5_severity_by_code (g : G) :
  exists r g',
    obd_diagnostics g = (Some r, g') /\
    forall it, In it (dtcs r) ->
      (severity it = u "élevée" <-> In (code it) [u "P0420"; u "P0300"]) /\
      (~ In (code it) [u "P0420"; u "P0300"] -> severity it = u "moyenne") /\
      severity it = (if list_contains (code it) [u "P0420"; u "P0300"]
                     then u "élevée" else u "moyenne").
Proof.
  destruct (obd_diagnostics_run DTC_LIBRARY g)
    as (codes & rest & g' & E & _ & _); [simpl; lia|].
  eexists _, g'. split; [exact E|]. cbn [dtcs].
  intros it Hit. apply in_map_iff in Hit as (c & <- & _).
  cbn [severity code diagnostic_item]. unfold high_severity_codes.
  destruct (list_contains c [u "P0420"; u "P0300"]) eqn:Ec.
  - apply list_contains_spec in Ec. repeat split; auto. intros Hn. contradiction.
  - assert (Hn : ~ In c [u "P0420"; u "P0300"]).
    { intros H. apply list_contains_spec in H. congruence. }
    repeat split; auto.
    + intros H. vm_compute in H. discriminate.
    + intros H. contradiction.
Qed.

(** C9. The fallback of the catalog lookup is never taken in
    [obd_diagnostics]: every returned item carries the description the
    catalog has for its code, and none carries "Code inconnu". *)
Theorem C9_unknown_code_unreachable (g : G) :
  exists r g',
    obd_diagnostics g = (Some r, g') /\
    forall it, In it (dtcs r) ->
      dict_lookup DTC_LIBRARY (code it) = Some (description it) /\
      In (code it, description it) DTC_LIBRARY /\
      description it <> u "Code inconnu".
Proof.
  destruct (obd_diagnostics_run DTC_LIBRARY g)
    as (codes & rest & g' & E & _ & Hp); [simpl; lia|].
  eexists _, g'. split; [exact E|]. cbn [dtcs].
  intros it Hit. apply in_map_iff in Hit as (c & <- & Hc).
  cbn [description code diagnostic_item].
  destruct (catalog_lookup c) as (d & Hd & Hin & Hne).
  { apply (Permutation_in _ Hp). apply in_or_app. now left. }
  unfold dict_get. rewrite Hd. auto.
Qed.

End SimulatorClaims.

(** C3, as the specification words it, fails: the sampler hands out 7/10
    for the speed reading; [_simulate_value] returns 0, while 7/10 rounded
    to the nearest integer and clamped to 0..5 is 1. *)
Lemma C3_rounding_counterexample :
  fst (gauss 0 1 {| floats := [7 # 10]; raws := [] |}) = 7 # 10 /\
  fst (_simulate_value 0 1 0 5 {| floats := [7 # 10]; raws := [] |}) = Some 0%Z /\
  clamp (round_nearest (7 # 10)) 0 5 = 1%Z /\
  fst (_simulate_value 0 1 0 5 {| floats := [7 # 10]; raws := [] |})
    <> Some (clamp (round_nearest (7 # 10)) 0 5).
Proof.
  split; [reflexivity|]. split; [reflexivity|]. split; [reflexivity|].
  vm_compute. discriminate.
Qed.

Lemma C3_truncate_then_clamp_witness :
  (0 <= 5)%Z /\
  fst (_simulate_value 0 1 0 5 {| floats := [-(3 # 2)]; raws := [] |})
  = Some (clamp (truncate (-(3 # 2))) 0 5).
Proof.
  split; [lia|].
  exact (C3_truncate_then_clamp 0 1 0 5 {| floats := [-(3 # 2)]; raws := [] |}
           ltac:(lia)).
Defined.

(* ===================================================================== *)
(** ** The assistant: further properties *)
(* ===================================================================== *)

Lemma substring_trans (a b c : pystr) :
  substring a b -> substring b c -> substring a c.
Proof.
  intros (p1 & s1 & ->) (p2 & s2 & ->).
  exists (p2 ++ p1), (s1 ++ s2). now rewrite <- !app_assoc.
Qed.

Lemma substring_embed (s q pre post : pystr) :
  substring s q -> substring s (pre ++ q ++ post).
Proof.
  intros H. apply substring_trans with q; [exact H|]. now exists pre, post.
Qed.

(** [lower] and [lower_plain] agree except where a capital sigma stood in
    final position: there the first has U+03C2 and the second U+03C3. *)
Lemma lower_from_plain (s before : pystr) :
  Forall2 (fun a b => a = b \/ (a = 962%N /\ b = 963%N))
          (lower_from before s) (lower_plain s).
Proof.
  revert before; induction s as [|c s IH]; intros before;
    cbn [lower_from lower_plain]; [constructor|].
  apply Forall2_app; [|apply IH].
  destruct (N.eqb_spec c 931) as [-> | Hc].
  - change (lower_cp 931) with [963%N].
    destruct (final_sigma before s); (constructor; [|constructor]);
      [right; split; reflexivity | left; reflexivity].
  - induction (lower_cp c); constructor; auto.
Qed.

Lemma startswith_sigma (k l1 l2 : pystr) :
  sigma_free k = true ->
  Forall2 (fun a b => a = b \/ (a = 962%N /\ b = 963%N)) l1 l2 ->
  startswith k l1 = startswith k l2.
Proof.
  revert l1 l2; induction k as [|a k IH]; intros l1 l2 Hk H; [reflexivity|].
  cbn [sigma_free forallb] in Hk. apply andb_true_iff in Hk as [Ha Hk].
  apply andb_true_iff in Ha as [Ha1 Ha2].
  apply negb_true_iff in Ha1, Ha2.
  destruct H as [|x y l1 l2 [-> | [-> ->]] H]; cbn [startswith].
  - reflexivity.
  - now rewrite (IH l1 l2 Hk H).
  - now rewrite Ha1, Ha2.
Qed.

Lemma str_contains_sigma (k l1 l2 : pystr) :
  sigma_free k = true ->
  Forall2 (fun a b => a = b \/ (a = 962%N /\ b = 963%N)) l1 l2 ->
  str_contains k l1 = str_contains k l2.
Proof.
  intros Hk H. induction H as [|x y l1 l2 Hxy H IH]; cbn [str_contains].
  - reflexivity.
  - rewrite IH. f_equal. apply startswith_sigma; [exact Hk|].
    now constructor.
Qed.

(** For a needle without small sigmas the rule for the final sigma makes no
    difference. *)
Lemma substring_lower_plain (k q : pystr) :
  sigma_free k = true ->
  substring k (lower q) <-> substring k (lower_plain q).
Proof.
  intros Hk. rewrite <- !str_contains_spec. unfold lower.
  now rewrite (str_contains_sigma k _ _ Hk (lower_from_plain q [])).
Qed.

Lemma lower_plain_eq (s : pystr) :
  sigma_free (lower s) = true -> lower_plain s = lower s.
Proof.
  unfold lower. generalize (lower_from_plain s []).
  generalize (lower_plain s) (lower_from [] s). intros l2 l1 H.
  induction H as [|x y l1 l2 Hxy H IH]; intros Hf; [reflexivity|].
  cbn [sigma_free forallb] in Hf. apply andb_true_iff in Hf as [Hx Hf].
  apply andb_true_iff in Hx as [Hx _]. apply negb_true_iff, N.eqb_neq in Hx.
  rewrite (IH Hf). destruct Hxy as [-> | [-> _]]; [reflexivity | contradiction].
Qed.

Lemma substring_lower_embed (k q pre post : pystr) :
  sigma_free k = true ->
  substring k (lower q) -> substring k (lower (pre ++ q ++ post)).
Proof.
  intros Hk. rewrite !(substring_lower_plain k) by exact Hk.
  rewrite !lower_plain_app. apply substring_embed.
Qed.

(** The lower-cased codes of the catalog and the keywords hold no sigma. *)
Lemma catalog_sigma_free (c d : pystr) :
  In (c, d) DTC_LIBRARY -> sigma_free (lower c) = true.
Proof.
  assert (K : forallb (fun it => sigma_free (lower (fst it))) DTC_LIBRARY = true)
    by (vm_compute; reflexivity).
  rewrite forallb_forall in K. intros H. exact (K _ H).
Qed.

Lemma keywords_sigma_free (k : pystr) :
  In k all_keywords -> sigma_free k = true.
Proof.
  assert (K : forallb sigma_free all_keywords = true)
    by (vm_compute; reflexivity).
  rewrite forallb_forall in K. exact (K k).
Qed.

Lemma code_matches_embed (q pre post : pystr) :
  code_matches DTC_LIBRARY (lower q) ->
  code_matches DTC_LIBRARY (lower (pre ++ q ++ post)).
Proof.
  intros (c & d & Hin & Hs). exists c, d. split; [exact Hin|].
  apply substring_lower_embed; [|exact Hs]. now apply (catalog_sigma_free c d).
Qed.

Lemma keyword_matches_embed (q pre post : pystr) :
  keyword_matches all_keywords (lower q) ->
  keyword_matches all_keywords (lower (pre ++ q ++ post)).
Proof.
  intros (k & Hin & Hs). exists k. split; [exact Hin|].
  apply substring_lower_embed; [|exact Hs]. now apply keywords_sigma_free.
Qed.

(** The default response is returned only when nothing matches. *)
Lemma tech_assistant_answer_default_iff (q : pystr) :
  tech_assistant_answer q = default_response <->
  ~ code_matches DTC_LIBRARY (lower q) /\
  ~ keyword_matches all_keywords (lower q).
Proof.
  split.
  - unfold tech_assistant_answer.
    generalize (tech_assistant_answer_branch DTC_LIBRARY q).
    generalize (tech_assistant_answer_in DTC_LIBRARY q). intros r B E.
    rewrite keyword_matches_all.
    destruct B; try (apply (f_equal tips) in E; discriminate E).
    rewrite keyword_matches_all in *. tauto.
  - intros [Hc Hk]. now apply tech_assistant_answer_default.
Qed.

(** A response built in the loop is returned only when a code matches. *)
Lemma tech_assistant_answer_dtc_iff (q : pystr) :
  (exists code desc,
      In (code, desc) DTC_LIBRARY /\
      tech_assistant_answer q = dtc_response code desc) <->
  code_matches DTC_LIBRARY (lower q).
Proof.
  unfold tech_assistant_answer.
  generalize (tech_assistant_answer_branch DTC_LIBRARY q).
  generalize (tech_assistant_answer_in DTC_LIBRARY q). intros r B.
  split.
  - intros (code & desc & _ & E).
    destruct B as [pre c d post E' Hpre Hs | | | | | ];
      try (apply (f_equal tips) in E; discriminate E).
    now apply (code_matches_middle _ _ _ _ _ _ E' Hs).
  - intros Hm.
    destruct B as [pre c d post E' Hpre Hs | | | | | ]; try contradiction.
    exists c, d. split; [|reflexivity].
    unfold items in E'. rewrite E'. apply in_or_app. right. now left.
Qed.

(** X1. The assistant has exactly ten responses to choose from, one per
    catalog entry and the five fixed ones: every question gets one of them,
    the ten are pairwise different, and each is the response to some
    question. *)
Theorem X1_ten_responses :
  (forall q, In (tech_assistant_answer q) all_responses) /\
  length all_responses = 10%nat /\
  NoDup all_responses /\
  (forall r, In r all_responses -> exists q, tech_assistant_answer q = r).
Proof.
  split; [|split; [|split]].
  - intros q. unfold tech_assistant_answer, all_responses.
    generalize (tech_assistant_answer_branch DTC_LIBRARY q).
    generalize (tech_assistant_answer_in DTC_LIBRARY q). intros r B.
    apply in_or_app.
    destruct B as [pre c d post E _ _ | | | | | ].
    + left. rewrite E. apply in_map_iff. exists (c, d). split; [reflexivity|].
      apply in_or_app. right. now left.
    + right. left. reflexivity.
    + right. right. left. reflexivity.
    + right. do 2 right. left. reflexivity.
    + right. do 3 right. left. reflexivity.
    + right. do 4 right. left. reflexivity.
  - reflexivity.
  - apply (bool_decide_unpack _). vm_compute. reflexivity.
  - intros r H. unfold all_responses, items, DTC_LIBRARY in H.
    cbn [map fst snd app In] in H.
    destruct H as [<- | [<- | [<- | [<- | [<- | [<- | [<- | [<- | [<- | [<- | []]]]]]]]]]].
    + exists (u "P0300"). vm_compute. reflexivity.
    + exists (u "P0171"). vm_compute. reflexivity.
    + exists (u "P0420"). vm_compute. reflexivity.
    + exists (u "P0113"). vm_compute. reflexivity.
    + exists (u "P0128"). vm_compute. reflexivity.
    + exists (u "obd"). vm_compute. reflexivity.
    + exists (u "rpm"). vm_compute. reflexivity.
    + exists (u "ecu"). vm_compute. reflexivity.
    + exists (u "12v"). vm_compute. reflexivity.
    + exists []. vm_compute. reflexivity.
Qed.

(** X2. A question that contains a catalog code, written in any mix of
    upper and lower case, gets a response built in the loop over the
    catalog: the one for that code, or for a code declared before it. *)
Theorem X2_code_in_any_case (q s code desc : pystr) :
  In (code, desc) DTC_LIBRARY ->
  lower s = lower code ->
  substring s q ->
  exists pre code' desc' post,
    items DTC_LIBRARY = pre ++ (code', desc') :: post /\
    ~ In (code, desc) pre /\
    tech_assistant_answer q = dtc_response code' desc'.
Proof.
  intros Hin Es Hs.
  assert (Hk : sigma_free (lower code) = true)
    by now apply (catalog_sigma_free code desc).
  assert (Hc : substring (lower code) (lower q)).
  { apply substring_lower_plain; [exact Hk|].
    rewrite <- Es, <- lower_plain_eq by now rewrite Es.
    destruct Hs as (pre & post & ->). exists (lower_plain pre), (lower_plain post).
    now rewrite !lower_plain_app. }
  assert (Hm : code_matches DTC_LIBRARY (lower q)) by now exists code, desc.
  unfold tech_assistant_answer.
  generalize (tech_assistant_answer_branch DTC_LIBRARY q).
  generalize (tech_assistant_answer_in DTC_LIBRARY q). intros r B.
  destruct B as [pre c d post E Hpre _ | | | | | ]; try contradiction.
  exists pre, c, d, post. split; [exact E|]. split; [|reflexivity].
  intros Hp. apply Hpre. now exists code, desc.
Qed.

Lemma X2_code_in_any_case_witness :
  exists pre code' desc' post,
    items DTC_LIBRARY = pre ++ (code', desc') :: post /\
    ~ In (u "P0420", u "Efficacité catalyseur faible. Contrôler fuites échappement, sonde amont/aval, catalyseur.") pre /\
    tech_assistant_answer (u "Voyant allumé, code p0420 ?") = dtc_response code' desc'.
Proof.
  apply (X2_code_in_any_case _ (u "p0420")).
  - vm_compute. auto.
  - vm_compute. reflexivity.
  - apply str_contains_spec. vm_compute. reflexivity.
Defined.

(** X3. Two keywords are redundant: a text that contains "sonde lambda"
    contains "lambda", and one that contains "reprogram" contains "reprog",
    so the idle/lambda test and the calculator test give the same result
    without them. *)
Theorem X3_redundant_keywords (text : pystr) :
  any_in idle_keywords text
    = any_in [u "rpm"; u "ralenti"; u "boucle"; u "lambda"; u "o2"] text /\
  any_in ecu_keywords text
    = any_in [u "ecu"; u "calculateur"; u "reprog"; u "carto"; u "map"] text.
Proof.
  assert (K : forall long short,
             str_contains short long = true ->
             str_contains long text = true -> str_contains short text = true).
  { intros long short H1 H2. apply str_contains_spec.
    apply substring_trans with long; now apply str_contains_spec. }
  split.
  - pose proof (K (u "sonde lambda") (u "lambda") eq_refl) as H.
    unfold any_in, idle_keywords. cbn [existsb].
    destruct (str_contains (u "sonde lambda") text);
      [rewrite (H eq_refl)|]; cbn [orb]; reflexivity.
  - pose proof (K (u "reprogram") (u "reprog") eq_refl) as H.
    unfold any_in, ecu_keywords. cbn [existsb].
    destruct (str_contains (u "reprogram") text);
      [rewrite (H eq_refl)|]; cbn [orb]; reflexivity.
Qed.

(** X4. Text around a question never makes the assistant fall back to the
    default: if a question gets a response other than the default one, so
    does every question that contains it. *)
Theorem X4_embedding_keeps_match (q pre post : pystr) :
  tech_assistant_answer q <> default_response ->
  tech_assistant_answer (pre ++ q ++ post) <> default_response.
Proof.
  rewrite !tech_assistant_answer_default_iff. intros H [Hc Hk]. apply H.
  split.
  - intros Hm. apply Hc. now apply code_matches_embed.
  - intros Hm. apply Hk. now apply keyword_matches_embed.
Qed.

Lemma X4_embedding_keeps_match_witness :
  tech_assistant_answer (u "Bonjour, " ++ u "ralenti" ++ u " instable")
  <> default_response.
Proof.
  apply (X4_embedding_keeps_match (u "ralenti")). vm_compute. discriminate.
Defined.

(** X5. Codes keep their priority under embedding: if a question gets a
    response for a catalog code, every question that contains it gets a
    response for a catalog code too. *)
Theorem X5_embedding_keeps_code (q pre post code desc : pystr) :
  In (code, desc) DTC_LIBRARY ->
  tech_assistant_answer q = dtc_response code desc ->
  exists code' desc',
    In (code', desc') DTC_LIBRARY /\
    tech_assistant_answer (pre ++ q ++ post) = dtc_response code' desc'.
Proof.
  intros Hin E. apply tech_assistant_answer_dtc_iff.
  apply code_matches_embed. apply tech_assistant_answer_dtc_iff. eauto.
Qed.

Lemma X5_embedding_keeps_code_witness :
  exists code' desc',
    In (code', desc') DTC_LIBRARY /\
    tech_assistant_answer (u "obd: " ++ u "P0128" ++ u " et p0300")
    = dtc_response code' desc'.
Proof.
  apply (X5_embedding_keeps_code (u "P0128") _ _ (u "P0128")
           (u "Thermostat probablement ouvert. Température moteur trop basse.")).
  - vm_compute. auto 10.
  - vm_compute. reflexivity.
Defined.

(* ===================================================================== *)
(** ** The simulator: further properties *)
(* ===================================================================== *)

Section Truncation.
Local Open Scope Q_scope.

Lemma truncate_inject_Z (z : Z) : truncate (inject_Z z) = z.
Proof.
  unfold truncate, Qceiling, Qfloor, inject_Z. cbn [Qopp Qnum Qden].
  destruct (Qle_bool 0 (z # 1)); rewrite Z.div_1_r; lia.
Qed.

Lemma truncate_mono (x y : Q) : x <= y -> (truncate x <= truncate y)%Z.
Proof.
  intros H. unfold truncate.
  destruct (Qle_bool 0 x) eqn:Ex, (Qle_bool 0 y) eqn:Ey.
  - now apply Qfloor_resp_le.
  - apply Qle_bool_iff in Ex.
    assert (Hy : Qle_bool 0 y = true)
      by (apply Qle_bool_iff; now apply Qle_trans with x).
    congruence.
  - assert (Hx : x <= 0).
    { apply Qlt_le_weak, Qnot_le_lt. intros K.
      apply Qle_bool_iff in K. congruence. }
    apply Qle_bool_iff in Ey.
    apply Z.le_trans with 0%Z.
    + change 0%Z with (Qceiling 0). now apply Qceiling_resp_le.
    + change 0%Z with (Qfloor 0). now apply Qfloor_resp_le.
  - now apply Qceiling_resp_le.
Qed.

(** Truncation moves a value toward zero, by less than one. *)
Lemma truncate_bounds (x : Q) :
  inject_Z (truncate x - 1) < x /\ x < inject_Z (truncate x + 1) /\
  (0 <= x -> inject_Z (truncate x) <= x) /\
  (x <= 0 -> x <= inject_Z (truncate x)).
Proof.
  unfold truncate. destruct (Qle_bool 0 x) eqn:E.
  - apply Qle_bool_iff in E. repeat split.
    + apply Qlt_le_trans with (inject_Z (Qfloor x)); [|apply Qfloor_le].
      rewrite <- Zlt_Qlt. lia.
    + apply Qlt_floor.
    + intros _. apply Qfloor_le.
    + intros H. apply Qle_trans with 0; [exact H|].
      change 0 with (inject_Z 0). rewrite <- Zle_Qle.
      change 0%Z with (Qfloor 0). now apply Qfloor_resp_le.
  - assert (Hx : x < 0).
    { apply Qnot_le_lt. intros K. apply Qle_bool_iff in K. congruence. }
    repeat split.
    + apply Qceiling_lt.
    + apply Qle_lt_trans with (inject_Z (Qceiling x)); [apply Qle_ceiling|].
      rewrite <- Zlt_Qlt. lia.
    + intros H. exfalso. apply (Qlt_irrefl 0).
      now apply Qle_lt_trans with x.
    + intros _. apply Qle_ceiling.
Qed.

End Truncation.

Section SimulatorMore.
Context {G : Type} {RS : RandomSource G}.
Local Open Scope Q_scope.

(** X6. With an inverted range, [max_v < min_v], [_simulate_value] returns
    [min_v] whatever the sampler hands out. *)
Theorem X6_inverted_range (baseline variance min_v max_v : Z) (g : G) :
  (max_v < min_v)%Z ->
  fst (_simulate_value baseline variance min_v max_v g) = Some min_v.
Proof.
  intros H. rewrite simulate_value_run. cbn [fst]. f_equal. lia.
Qed.

(** X7. [_simulate_value] preserves order: a larger sample never gives a
    smaller reading, for any range. *)
Theorem X7_monotone_in_sample (baseline variance min_v max_v : Z) (g1 g2 : G) :
  fst (gauss baseline variance g1) <= fst (gauss baseline variance g2) ->
  exists r1 r2,
    fst (_simulate_value baseline variance min_v max_v g1) = Some r1 /\
    fst (_simulate_value baseline variance min_v max_v g2) = Some r2 /\
    (r1 <= r2)%Z.
Proof.
  intros H. rewrite !simulate_value_run. cbn [fst].
  eexists _, _. split; [reflexivity|]. split; [reflexivity|].
  apply truncate_mono in H. rewrite !py_int_truncate. lia.
Qed.

(** X8. A sample that lies inside the range is not clamped: the reading is
    the sample truncated toward zero, it lies in the range, differs from the
    sample by less than one and is never farther from zero than the
    sample. *)
Theorem X8_sample_inside_range (baseline variance min_v max_v : Z) (g : G) :
  inject_Z min_v <= fst (gauss baseline variance g) ->
  fst (gauss baseline variance g) <= inject_Z max_v ->
  exists r,
    fst (_simulate_value baseline variance min_v max_v g) = Some r /\
    r = truncate (fst (gauss baseline variance g)) /\
    (min_v <= r <= max_v)%Z /\
    inject_Z (r - 1) < fst (gauss baseline variance g) /\
    fst (gauss baseline variance g) < inject_Z (r + 1) /\
    (0 <= fst (gauss baseline variance g) ->
       inject_Z r <= fst (gauss baseline variance g)) /\
    (fst (gauss baseline variance g) <= 0 ->
       fst (gauss baseline variance g) <= inject_Z r).
Proof.
  intros Hlo Hhi. rewrite simulate_value_run. cbn [fst].
  rewrite py_int_truncate.
  apply truncate_mono in Hlo. apply truncate_mono in Hhi.
  rewrite truncate_inject_Z in Hlo, Hhi.
  replace (Z.max min_v (Z.min max_v (truncate (fst (gauss baseline variance g)))))
    with (truncate (fst (gauss baseline variance g))) by lia.
  eexists. split; [reflexivity|]. split; [reflexivity|]. split; [lia|].
  apply truncate_bounds.
Qed.

Lemma generate_live_data_returns (now : pystr) (g : G) :
  exists d g', generate_live_data now g = (Some d, g').
Proof.
  unfold generate_live_data.
  do 6 (erewrite bind_run by apply simulate_value_run).
  unfold ret. eexists _, _. reflexivity.
Qed.

Lemma choice_count (g : G) :
  choice [0; 1; 2]%nat g
  = (Some (fst (randbits g) mod 3)%nat, snd (randbits g)).
Proof.
  unfold choice, randbelow, bind, lift. cbn [length].
  destruct (randbits g) as [r g']. cbn [fst snd].
  assert (H : (r mod 3 < 3)%nat) by (apply Nat.mod_upper_bound; lia).
  destruct (r mod 3)%nat as [|[|[|n]]]; try reflexivity. lia.
Qed.

(** X10. The count of [obd_diagnostics] is drawn without looking at the
    catalog.  On a catalog of at most 21 entries, where [random.sample]
    selects from a pool, the call raises exactly when the count that
    [random.choice] returned exceeds the number of entries; with two entries
    or more it never raises. *)
Theorem X10_diagnostics_raises_iff (library : dict) (g : G) :
  (length library <= 21)%nat ->
  (fst (obd_diagnostics_in library g) = None <->
   exists k,
     fst (choice [0; 1; 2]%nat g) = Some k /\ (length library < k)%nat) /\
  ((2 <= length library)%nat -> fst (obd_diagnostics_in library g) <> None).
Proof.
  intros _.
  assert (Hk2 : (fst (randbits g) mod 3 <= 2)%nat).
  { assert ((fst (randbits g) mod 3 < 3)%nat)
      by (apply Nat.mod_upper_bound; lia). lia. }
  unfold obd_diagnostics_in. cbv zeta.
  rewrite (bind_run _ _ _ _ _ (choice_count g)). rewrite (choice_count g).
  cbn [fst].
  set (k := (fst (randbits g) mod 3)%nat) in *. set (g1 := snd (randbits g)).
  destruct (le_lt_dec k (length library)) as [Hk | Hk].
  - destruct (sample_run (keys library) k g1) as (codes & rest & g' & Es & _).
    { unfold keys. now rewrite length_map. }
    rewrite (bind_run _ _ _ _ _ Es). unfold ret. cbn [fst].
    split; [|discriminate].
    split; [discriminate | intros (k' & [= <-] & Hlt); lia].
  - assert (E : fst (bind (sample (keys library) k)
                       (fun codes =>
                          ret {| dtcs := map (diagnostic_item library) codes |}) g1)
                = None).
    { unfold bind, sample. cbv zeta. unfold keys. rewrite length_map.
      replace (k <=? length library)%nat with false
        by (symmetry; apply Nat.leb_gt; exact Hk).
      reflexivity. }
    rewrite E. split; [|lia].
    split; [intros _; now exists k | reflexivity].
Qed.

(** X11. No request to a freshly loaded server, after any earlier requests
    and with any generator, ends in an error. *)
Theorem X11_requests_never_fail (before : list Request) (req : Request) (g : G) :
  fst (handle req (serve before (boot g))) <> ServerError.
Proof.
  destruct (serve_tables before (boot g)) as [Hd _].
  destruct req; cbn [handle fst]; try discriminate.
  - destruct (generate_live_data_returns now (generator (serve before (boot g))))
      as (d & g' & E).
    rewrite E. discriminate.
  - rewrite Hd. cbn [boot dtc_library].
    destruct (obd_diagnostics_run DTC_LIBRARY (generator (serve before (boot g))))
      as (codes & rest & g' & E & _); [simpl; lia|].
    rewrite E. discriminate.
Qed.

(** X12. No request writes to the two tables: after any sequence of
    requests they are as declared, a request for the PIDs is answered with
    the declared table, and requests other than live data and diagnostics
    leave the whole server state as it was. *)
Theorem X12_tables_are_read_only (before : list Request) (req : Request) (g : G) :
  dtc_library (serve before (boot g)) = DTC_LIBRARY /\
  supported_pids (serve before (boot g)) = SUPPORTED_PIDS /\
  fst (handle GetPids (serve before (boot g))) = Pids SUPPORTED_PIDS /\
  match req with
  | GetLive _ | GetDiagnostics => True
  | _ => snd (handle req (serve before (boot g))) = serve before (boot g)
  end.
Proof.
  destruct (serve_tables before (boot g)) as [Hd Hp].
  split; [exact Hd|]. split; [exact Hp|]. split.
  - cbn [handle fst]. now rewrite Hp.
  - destruct req; auto.
Qed.

End SimulatorMore.

(** X9. [generate_live_data] makes six draws from the normal sampler and
    none other, in the order rpm, speed, coolant, throttle, load, intake:
    each reading comes from its own draw, truncated and clamped to its own
    range, and the timestamp is the clock reading followed by "Z". *)
Theorem X9_six_draws_in_order
    (now : pystr) (x1 x2 x3 x4 x5 x6 : Q) (rest : list Q) (rs : list nat) :
  generate_live_data now
    {| floats := x1 :: x2 :: x3 :: x4 :: x5 :: x6 :: rest; raws := rs |}
  = (Some {| timestamp := now ++ u "Z";
             rpm := clamp (truncate x1) 650 1200;
             speed := clamp (truncate x2) 0 5;
             coolant_temp := clamp (truncate x3) 70 100;
             throttle := clamp (truncate x4) 0 15;
             load := clamp (truncate x5) 5 35;
             intake_temp := clamp (truncate x6) 5 60 |},
     {| floats := rest; raws := rs |}).
Proof.
  unfold generate_live_data.
  do 6 (erewrite bind_run by apply simulate_value_run).
  unfold ret. cbn [gauss tape_source tape_gauss floats raws fst snd].
  rewrite !py_int_truncate, !max_min_clamp by lia. reflexivity.
Qed.

Lemma X6_inverted_range_witness :
  fst (_simulate_value 0 1 5 0 {| floats := [3 # 1]; raws := [] |}) = Some 5%Z.
Proof.
  exact (X6_inverted_range 0 1 5 0 {| floats := [3 # 1]; raws := [] |} ltac:(lia)).
Defined.

Section SimulatorWitnesses.
Local Open Scope Q_scope.

Lemma X7_monotone_in_sample_witness :
  exists r1 r2,
    fst (_simulate_value 88 3 70 100 {| floats := [855 # 10]; raws := [] |}) = Some r1 /\
    fst (_simulate_value 88 3 70 100 {| floats := [912 # 10]; raws := [] |}) = Some r2 /\
    (r1 <= r2)%Z.
Proof.
  apply (X7_monotone_in_sample 88 3 70 100
           {| floats := [855 # 10]; raws := [] |}
           {| floats := [912 # 10]; raws := [] |}).
  vm_compute. discriminate.
Defined.

Lemma X8_sample_inside_range_witness :
  exists r,
    fst (_simulate_value 88 3 70 100 {| floats := [899 # 10]; raws := [] |}) = Some r /\
    r = truncate (899 # 10) /\
    (70 <= r <= 100)%Z /\
    inject_Z (r - 1) < 899 # 10 /\
    899 # 10 < inject_Z (r + 1) /\
    (0 <= 899 # 10 -> inject_Z r <= 899 # 10) /\
    (899 # 10 <= 0 -> 899 # 10 <= inject_Z r).
Proof.
  exact (X8_sample_inside_range (RS := tape_source) 88 3 70 100
           {| floats := [899 # 10]; raws := [] |}
           ltac:(vm_compute; discriminate) ltac:(vm_compute; discriminate)).
Defined.

Lemma X10_diagnostics_raises_iff_witness :
  (fst (obd_diagnostics_in [(u "P0300", u "x")] {| floats := []; raws := [2%nat] |}) = None <->
   exists k,
     fst (choice [0; 1; 2]%nat {| floats := []; raws := [2%nat] |}) = Some k /\
     (length [(u "P0300", u "x")] < k)%nat) /\
  ((2 <= length [(u "P0300", u "x")])%nat ->
   fst (obd_diagnostics_in [(u "P0300", u "x")] {| floats := []; raws := [2%nat] |}) <> None).
Proof.
  apply (X10_diagnostics_raises_iff (RS := tape_source)). simpl. lia.
Defined.

End SimulatorWitnesses.

(* ===================================================================== *)
(** ** The database probe: properties *)
(* ===================================================================== *)

Lemma truthy_spec (v : option pystr) :
  truthy v = true <-> exists c s, v = Some (c :: s).
Proof.
  destruct v as [[|c s]|]; simpl; split; try discriminate; eauto;
    intros (c' & s' & E); discriminate.
Qed.

(** X13. The two fields [database_url] and [database_name] of the probe's
    report only say whether the environment variables DATABASE_URL and
    DATABASE_NAME are set to a non-empty value: they are the same whatever
    the import of the database module did, so neither the database's own
    name nor the text written when the import succeeds ever reaches the
    caller; a variable set to the empty string is reported as not set. *)
Theorem X13_probe_reports_environment (imp imp' : Import) (env : Environ) :
  database_url (test_database imp env) = database_url (test_database imp' env) /\
  database_name (test_database imp env) = database_name (test_database imp' env) /\
  (database_url (test_database imp env) = Some (u "✅ Set") <->
     exists c s, DATABASE_URL env = Some (c :: s)) /\
  (database_name (test_database imp env) = Some (u "✅ Set") <->
     exists c s, DATABASE_NAME env = Some (c :: s)) /\
  (DATABASE_URL env = None \/ DATABASE_URL env = Some [] ->
     database_url (test_database imp env) = Some (u "❌ Not Set")) /\
  (DATABASE_NAME env = None \/ DATABASE_NAME env = Some [] ->
     database_name (test_database imp env) = Some (u "❌ Not Set")).
Proof.
  assert (Hu : forall i, database_url (test_database i env)
             = Some (if truthy (DATABASE_URL env) then u "✅ Set" else u "❌ Not Set"))
    by reflexivity.
  assert (Hn : forall i, database_name (test_database i env)
             = Some (if truthy (DATABASE_NAME env) then u "✅ Set" else u "❌ Not Set"))
    by reflexivity.
  rewrite !Hu, !Hn. rewrite <- !truthy_spec.
  split; [reflexivity|]. split; [reflexivity|].
  split; [|split; [|split]].
  - destruct (truthy (DATABASE_URL env)); split; auto; intros H;
      try discriminate; try (vm_compute in H; discriminate).
  - destruct (truthy (DATABASE_NAME env)); split; auto; intros H;
      try discriminate; try (vm_compute in H; discriminate).
  - intros [-> | ->]; reflexivity.
  - intros [-> | ->]; reflexivity.
Qed.

(** X14. The report lists at most ten collections, the first ten the
    database returned; the database text is "Connected & Working" exactly
    when the module was imported, [db] was not [None] and listing the
    collections returned, and in every other case the list is empty. *)
Theorem X14_probe_collections (imp : Import) (env : Environ) :
  (length (collections (test_database imp env)) <= 10)%nat /\
  (database (test_database imp env) = u "✅ Connected & Working" <->
     exists db cs,
       imp = Imported (Some db) /\ list_collection_names db = Returned cs) /\
  (forall db cs,
     imp = Imported (Some db) -> list_collection_names db = Returned cs ->
     collections (test_database imp env) = take 10 cs) /\
  (database (test_database imp env) <> u "✅ Connected & Working" ->
     collections (test_database imp env) = []).
Proof.
  destruct imp as [ | e | [[name [cs | e]] | ]];
    cbn [test_database set_database set_database_url set_database_name
         set_connection_status set_collections backend database database_url
         database_name connection_status collections list_collection_names
         db_name length].
  - split; [lia|]. split; [|split; [intros ? ? [=] | reflexivity]].
    split; [intros H; vm_compute in H; discriminate
           | intros (db & cs & [=] & _)].
  - split; [lia|]. split; [|split; [intros ? ? [=] | reflexivity]].
    split; [intros H; vm_compute in H; discriminate
           | intros (db & cs & [=] & _)].
  - split; [rewrite length_take; lia|]. split; [|split].
    + split; [eauto | reflexivity].
    + intros db cs' [= <-]. cbn [list_collection_names]. now intros [= <-].
    + intros H. contradiction.
  - split; [lia|]. split; [|split; [|reflexivity]].
    + split; [intros H; vm_compute in H; discriminate|].
      intros (db & cs & [= <-] & H). discriminate.
    + intros db cs [= <-]. discriminate.
  - split; [lia|]. split; [|split; [intros ? ? [=] | reflexivity]].
    split; [intros H; vm_compute in H; discriminate
           | intros (db & cs & [=] & _)].
Qed.

(** X15. The probe reports "Connected" exactly when the module was imported
    and [db] was not [None], also when listing the collections then fails;
    otherwise it reports "Not Connected".  The backend is always reported
    as running. *)
Theorem X15_probe_connection_status (imp : Import) (env : Environ) :
  (connection_status (test_database imp env) = u "Connected" <->
     exists db, imp = Imported (Some db)) /\
  (connection_status (test_database imp env) <> u "Connected" ->
     connection_status (test_database imp env) = u "Not Connected") /\
  backend (test_database imp env) = u "✅ Running".
Proof.
  destruct imp as [ | e | [[name [cs | e]] | ]];
    cbn [test_database set_database set_database_url set_database_name
         set_connection_status set_collections backend database database_url
         database_name connection_status collections list_collection_names
         db_name];
    (split; [|split; [|reflexivity]]);
    try (intros _; reflexivity);
    try (intros H; contradiction);
    try (split; [intros H; vm_compute in H; discriminate | intros (db & [=])]);
    try (split; [eauto | reflexivity]).
Qed.

(** X16. The database text of the report is bounded: an exception's text is
    cut to its first fifty code points, so the text never exceeds 75 code
    points however long the exception text is. *)
Theorem X16_probe_message_bounded (imp : Import) (env : Environ) :
  (length (database (test_database imp env)) <= 75)%nat /\
  (forall e, imp = ImportException e ->
     database (test_database imp env) = u "❌ Error: " ++ take 50 e) /\
  (forall db e, imp = Imported (Some db) -> list_collection_names db = Raised e ->
     database (test_database imp env)
     = u "⚠️  Connected but Error: " ++ take 50 e).
Proof.
  split; [|split].
  - destruct imp as [ | e | [[name [cs | e]] | ]]; cbn [test_database set_database set_database_url set_database_name
           set_connection_status set_collections backend database
           database_url database_name connection_status collections
           list_collection_names db_name];
      rewrite ?length_app, ?length_take;
      repeat match goal with
      | |- context [length (u ?s)] =>
        let n := eval vm_compute in (length (u s)) in
        change (length (u s)) with n
      end; lia.
  - intros e ->. reflexivity.
  - intros [name l] e -> H. cbn [list_collection_names] in H. subst l. reflexivity.
Qed.

(* ===================================================================== *)
(** ** Worked examples *)
(* ===================================================================== *)

Example ask_p0420 :
  tech_assistant_answer (u "Que signifie P0420 ?")
  = {| answer := u "Le code P0420 signifie: Efficacité catalyseur faible. Contrôler fuites échappement, sonde amont/aval, catalyseur.";
       tips := Some [dtc_tip] |}.
Proof. vm_compute. reflexivity. Qed.

Example ask_ralenti :
  tech_assistant_answer (u "probleme ralenti instable") = idle_response.
Proof. vm_compute. reflexivity. Qed.

Example ask_demarrage_upper :
  tech_assistant_answer (u "DÉMARRAGE difficile") = battery_response.
Proof. vm_compute. reflexivity. Qed.

Example live_on_tape :
  fst (generate_live_data (u "2024-01-01T00:00:00")
         {| floats := [2000 # 1; -(3 # 2); 885 # 10; 39 # 10; 18 # 1; 0 # 1]; raws := [] |})
  = Some {| timestamp := u "2024-01-01T00:00:00Z";
            rpm := 1200; speed := 0; coolant_temp := 88; throttle := 3;
            load := 18; intake_temp := 5 |}.
Proof. vm_compute. reflexivity. Qed.

Example diagnostics_on_tape :
  option_map (fun r => map code (dtcs r))
    (fst (obd_diagnostics {| floats := []; raws := [5; 7; 11]%nat |}))
  = Some [u "P0420"; u "P0113"].
Proof. vm_compute. reflexivity. Qed.

Example ask_two_codes :
  tech_assistant_answer (u "p0420 apres P0300")
  = dtc_response (u "P0300")
      (u "Allumage raté aléatoire/multiple. Vérifier bougies, bobines, faisceau.").
Proof. vm_compute. reflexivity. Qed.

Example ask_code_before_keyword :
  answer (tech_assistant_answer (u "obd P0128 batterie"))
  = u "Le code P0128 signifie: Thermostat probablement ouvert. Température moteur trop basse.".
Proof. vm_compute. reflexivity. Qed.

Example ask_dotted_capital_i :
  lower (u "RALENTİ") = u "ralenti" ++ [775%N] /\
  tech_assistant_answer (u "RALENTİ") = idle_response.
Proof. split; vm_compute; reflexivity. Qed.

Example ask_nothing :
  tech_assistant_answer [] = default_response.
Proof. vm_compute. reflexivity. Qed.

Example simulate_truncates :
  fst (_simulate_value 88 3 70 100 {| floats := [899 # 10]; raws := [] |}) = Some 89%Z /\
  fst (_simulate_value 0 1 (-5) 5 {| floats := [-(19 # 10)]; raws := [] |}) = Some (-1)%Z.
Proof. split; vm_compute; reflexivity. Qed.

Example probe_without_module :
  test_database ImportError {| DATABASE_URL := Some (u "mongodb://localhost"); DATABASE_NAME := Some [] |}
  = {| backend := u "✅ Running";
       database := u "❌ Database module not found (run enable-database first)";
       database_url := Some (u "✅ Set");
       database_name := Some (u "❌ Not Set");
       connection_status := u "Not Connected";
       collections := [] |}.
Proof. vm_compute. reflexivity. Qed.

Example probe_listing_fails :
  test_database
    (Imported (Some {| db_name := Some (u "garage");
                       list_collection_names := Raised (u "timed out") |}))
    {| DATABASE_URL := None; DATABASE_NAME := None |}
  = {| backend := u "✅ Running";
       database := u "⚠️  Connected but Error: timed out";
       database_url := Some (u "❌ Not Set");
       database_name := Some (u "❌ Not Set");
       connection_status := u "Connected";
       collections := [] |}.
Proof. vm_compute. reflexivity. Qed.

Example diagnostics_on_short_catalog :
  fst (obd_diagnostics_in [(u "P0300", u "x")] {| floats := []; raws := [2]%nat |})
  = None.
Proof. vm_compute. reflexivity. Qed.

Example lower_final_sigma :
  lower (u "ΑΣ") = u "ας" /\
  lower (u "ΑΣΑ") = u "ασα" /\
  lower (u "Σ") = u "σ" /\
  lower (u "ΑΣ Ā") = u "ας ā" /\
  lower (u "ΌΣ'. Σ") = u "ός'. σ".
Proof. repeat split; vm_compute; reflexivity. Qed.

Example ask_with_greek_around :
  tech_assistant_answer (u "ΑΣ" ++ u "P0171" ++ u "Α") = 
  dtc_response (u "P0171")
    (u "Mélange pauvre (banc 1). Chercher prise d'air, débitmètre, pression carburant.").
Proof. vm_compute. reflexivity. Qed.
